(** * FinanceBot frontend: token guard, chat service and chat orchestrator

    A shallow embedding of the TypeScript sources
      - [lib/api.ts]                        (axios client, interceptors, token storage)
      - [services/chatService.ts]           (ChatService)
      - [components/Chat/ChatContext.tsx]   (ChatProvider: the conversation state machine)
    followed by the properties of the session and conversation engine.

    Asynchronous functions are split at their [await]s: the synchronous
    prefix that issues the call, and one continuation per way the awaited
    promise settles.  React state is an explicit record; a [setX] call is a
    state update, applied in program order. *)

From Stdlib Require Import ZArith Ascii String List Sorted DecimalString.
From stdpp Require Import base option list strings gmap sorting.

Local Open Scope string_scope.
Local Open Scope list_scope.
Local Open Scope Z_scope.

(** ** JavaScript values

    The runtime values the code inspects with [typeof], [in], [instanceof],
    [Array.isArray] and truthiness tests: response bodies and thrown values. *)
Module Js.

Inductive JsClass := PlainObject | ErrorInstance.

#[local] Set Warnings "-register-all".

Inductive JsVal :=
| VUndefined
| VNull
| VBool (b : bool)
| VNum (n : Z)
| VStr (s : string)
| VArr (elems : list JsVal) (props : list (string * JsVal))
| VObj (cls : JsClass) (props : list (string * JsVal)).

(** Own properties are kept in insertion order; the first binding of a key wins. *)
Fixpoint assoc {A} (k : string) (l : list (string * A)) : option A :=
  match l with
  | [] => None
  | (k', v) :: l' => if String.eqb k k' then Some v else assoc k l'
  end.

Fixpoint assoc_set {A} (k : string) (v : A) (l : list (string * A)) : list (string * A) :=
  match l with
  | [] => [(k, v)]
  | (k', v') :: l' =>
      if String.eqb k k' then (k, v) :: l' else (k', v') :: assoc_set k v l'
  end.

Definition truthy (v : JsVal) : bool :=
  match v with
  | VUndefined | VNull => false
  | VBool b => b
  | VNum n => negb (n =? 0)
  | VStr s => negb (String.eqb s "")
  | VArr _ _ | VObj _ _ => true
  end.

Definition typeof (v : JsVal) : string :=
  match v with
  | VUndefined => "undefined"
  | VNull | VArr _ _ | VObj _ _ => "object"
  | VBool _ => "boolean"
  | VNum _ => "number"
  | VStr _ => "string"
  end.

Definition isArray (v : JsVal) : bool :=
  match v with VArr _ _ => true | _ => false end.

Definition instanceof_Error (v : JsVal) : bool :=
  match v with VObj ErrorInstance _ => true | _ => false end.

(** [a || b] *)
Definition or_else (a b : JsVal) : JsVal := if truthy a then a else b.

Definition show_Z (n : Z) : string := NilZero.string_of_int (Z.to_int n).

Definition object_prototype : list (string * JsVal) :=
  [("constructor", VUndefined); ("hasOwnProperty", VUndefined);
   ("isPrototypeOf", VUndefined); ("propertyIsEnumerable", VUndefined);
   ("toLocaleString", VUndefined); ("toString", VUndefined);
   ("valueOf", VUndefined)].

Definition error_prototype : list (string * JsVal) :=
  [("name", VStr "Error"); ("message", VStr "")] ++ object_prototype.

Definition prototype (c : JsClass) : list (string * JsVal) :=
  match c with
  | PlainObject => object_prototype
  | ErrorInstance => error_prototype
  end.

(** [k in v], for [v] an object or an array (the callers test [typeof] first) *)
Definition has_prop (k : string) (v : JsVal) : bool :=
  match v with
  | VObj c props => bool_decide (is_Some (assoc k props)) || bool_decide (is_Some (assoc k (prototype c)))
  | VArr _ props => String.eqb k "length" || bool_decide (is_Some (assoc k props))
  | _ => false
  end.

(** A statement either completes with a value or throws one. *)
Inductive Completion (A : Type) :=
| Normal (a : A)
| Throw (e : JsVal).
Arguments Normal {A} a.
Arguments Throw {A} e.

Definition bind {A B} (c : Completion A) (k : A -> Completion B) : Completion B :=
  match c with
  | Normal a => k a
  | Throw e => Throw e
  end.

(** [try { c } catch (e) { h e }] *)
Definition try_catch {A} (c : Completion A) (h : JsVal -> Completion A) : Completion A :=
  match c with
  | Normal a => Normal a
  | Throw e => h e
  end.

(** The TypeError raised by a property access on [undefined] or [null]. *)
Definition TypeError : JsVal :=
  VObj ErrorInstance [("message", VStr "Cannot read properties of undefined")].

(** [v.k] *)
Definition get_prop (k : string) (v : JsVal) : Completion JsVal :=
  match v with
  | VUndefined | VNull => Throw TypeError
  | VObj c props =>
      Normal (match assoc k props with
              | Some x => x
              | None => default VUndefined (assoc k (prototype c))
              end)
  | VArr elems props =>
      Normal (if String.eqb k "length" then VNum (Z.of_nat (length elems))
              else default VUndefined (assoc k props))
  | VStr s =>
      Normal (if String.eqb k "length" then VNum (Z.of_nat (String.length s))
              else VUndefined)
  | VBool _ | VNum _ => Normal VUndefined
  end.

(** [v?.k] *)
Definition get_opt (k : string) (v : JsVal) : JsVal :=
  match get_prop k v with
  | Normal x => x
  | Throw _ => VUndefined
  end.

(** [v.k = x]; a primitive ignores the write *)
Definition set_prop (k : string) (x : JsVal) (v : JsVal) : Completion JsVal :=
  match v with
  | VUndefined | VNull => Throw TypeError
  | VObj c props => Normal (VObj c (assoc_set k x props))
  | VArr elems props => Normal (VArr elems (assoc_set k x props))
  | _ => Normal v
  end.

Definition is_num (n : Z) (v : JsVal) : bool :=
  match v with VNum m => m =? n | _ => false end.

Definition is_str (s : string) (v : JsVal) : bool :=
  match v with VStr t => String.eqb t s | _ => false end.

(** [String(v)], as a template literal or [new Error(v)] converts its argument *)
Fixpoint to_string (v : JsVal) : string :=
  match v with
  | VUndefined => "undefined"
  | VNull => "null"
  | VBool true => "true"
  | VBool false => "false"
  | VNum n => show_Z n
  | VStr s => s
  | VArr elems _ =>
      String.concat ","
        (List.map (fun e => match e with
                            | VUndefined | VNull => ""
                            | _ => to_string e
                            end) elems)
  | VObj PlainObject _ => "[object Object]"
  | VObj ErrorInstance props =>
      match assoc "message" props with
      | Some (VStr m) => if String.eqb m "" then "Error" else "Error: " +:+ m
      | _ => "Error"
      end
  end.

(** [new Error(msg)]: the message is an own property unless [msg] is [undefined] *)
Definition new_Error (msg : JsVal) : JsVal :=
  VObj ErrorInstance
    (match msg with
     | VUndefined => []
     | _ => [("message", VStr (to_string msg))]
     end).

(** [hay.includes(needle)] *)
Fixpoint includes (needle hay : string) : bool :=
  String.prefix needle hay ||
  match hay with
  | EmptyString => false
  | String _ rest => includes needle rest
  end.

End Js.
Export Js.

Notation "'let!' x ':=' c 'in' k" := (Js.bind c (fun x => k))
  (at level 10, x name, c at level 100, k at level 200).

(** ** lib/config.ts *)
Module Config.

Module STORAGE_KEYS.
Definition USER : string := "financebot-user".
Definition TOKENS : string := "financebot-tokens".
End STORAGE_KEYS.

Module CONSTANTS.
Definition MAX_MESSAGE_LENGTH : Z := 500.
Definition DEFAULT_PAGE_SIZE : Z := 3.
End CONSTANTS.

End Config.

(** ** lib/api.ts: the axios client and its token guard *)
Module Api.
Import Config.

(** A [localStorage] entry is a string.  [Ser v] is the text
    [JSON.stringify(v)] of a JSON value, which [JSON.parse] maps back to
    [v]; [Lit s] is any other text: the empty string or text that
    [JSON.parse] rejects. *)
Inductive Stored :=
| Ser (v : JsVal)
| Lit (s : string).

Record Browser := {
  localStorage : gmap string Stored;
  location_href : string;
}.

Definition JSON_stringify (v : JsVal) : Stored :=
  match v with
  | VUndefined => Lit "undefined"
  | _ => Ser v
  end.

Definition getStoredTokens (b : Browser) : JsVal :=
  match localStorage b !! STORAGE_KEYS.TOKENS with
  | Some (Ser v) => v
  | Some (Lit _) => VNull
  | None => VNull
  end.

Definition storeTokens (tokens : JsVal) (b : Browser) : Browser :=
  {| localStorage := <[STORAGE_KEYS.TOKENS := JSON_stringify tokens]> (localStorage b);
     location_href := location_href b |}.

Definition clearStoredTokens (b : Browser) : Browser :=
  {| localStorage := delete STORAGE_KEYS.TOKENS (localStorage b);
     location_href := location_href b |}.

Definition set_location_href (href : string) (b : Browser) : Browser :=
  {| localStorage := localStorage b; location_href := href |}.

Record RequestConfig := {
  url : option string;
  method : string;
  data : JsVal;
  headers : gmap string string;
  _retry : bool;
}.

Definition set_retry (r : RequestConfig) : RequestConfig :=
  {| url := url r; method := method r; data := data r;
     headers := headers r; _retry := true |}.

Definition set_header (k v : string) (r : RequestConfig) : RequestConfig :=
  {| url := url r; method := method r; data := data r;
     headers := <[k := v]> (headers r); _retry := _retry r |}.

Record AxiosResponse (T : Type) := {
  status : Z;
  body : T;
}.
Arguments status {T} _.
Arguments body {T} _.

(** The error axios rejects with: [response] is set when the server
    answered, [request] when the request was sent. *)
Record AxiosError := {
  message : string;
  config : RequestConfig;
  request : bool;
  response : option (AxiosResponse JsVal);
}.

Definition with_config (c : RequestConfig) (e : AxiosError) : AxiosError :=
  {| message := message e; config := c; request := request e; response := response e |}.

(** The error as the object [transformError] inspects.  axios assigns
    [request] and [response] only when they are defined. *)
Definition axios_error_val (e : AxiosError) : JsVal :=
  VObj ErrorInstance
    ([("message", VStr (message e)); ("name", VStr "AxiosError");
      ("config", VObj PlainObject [])]
     ++ (if request e then [("request", VObj PlainObject [])] else [])
     ++ (match response e with
         | Some r => [("response",
                       VObj PlainObject [("data", body r); ("status", VNum (status r))])]
         | None => []
         end)).

Definition isAuthEndpoint (u : option string) : bool :=
  match u with
  | None => false
  | Some u =>
      includes "/auth/" u &&
      (includes "/login" u || includes "/register" u || includes "/signin" u ||
       includes "/forgot-password" u || includes "/reset-password" u)
  end.

(** Request interceptor *)
Definition onRequest (cfg : RequestConfig) (b : Browser) : Browser * RequestConfig :=
  let tokens := getStoredTokens b in
  let '(b, cfg) :=
    if truthy (get_opt "access_token" tokens) then
      (b, set_header "Authorization" ("Bearer " +:+ to_string (get_opt "access_token" tokens)) cfg)
    else if negb (isAuthEndpoint (url cfg)) then
      (set_location_href "/" (clearStoredTokens b), cfg)
    else (b, cfg) in
  (b, set_header "ngrok-skip-browser-warning" "true" cfg).

Definition transformError (error : JsVal) : Completion JsVal :=
  if truthy error && String.eqb (typeof error) "object" && has_prop "response" error then
    let! resp := get_prop "response" error in
    let! d := get_prop "data" resp in
    let detail := or_else (get_opt "detail" d) (VStr "An error occurred") in
    let! st := get_prop "status" resp in
    Normal (VObj PlainObject
              [("detail", detail); ("status_code", st); ("type", get_opt "type" d)])
  else if truthy error && String.eqb (typeof error) "object" && has_prop "request" error then
    Normal (VObj PlainObject
              [("detail", VStr "Network error - please check your connection");
               ("status_code", VNum 0);
               ("type", VStr "network_error")])
  else if instanceof_Error error then
    Normal (VObj PlainObject
              [("detail", or_else (get_opt "message" error) (VStr "An unexpected error occurred"));
               ("status_code", VNum 500);
               ("type", VStr "unknown_error")])
  else
    Normal (VObj PlainObject
              [("detail", VStr "An unexpected error occurred");
               ("status_code", VNum 500);
               ("type", VStr "unknown_error")]).

(** How a call of the response error handler stands: settled, or
    suspended at [await refreshTokens(tokens.refresh_token)]. *)
Inductive Handler :=
| Reject (e : JsVal)
| Reissue (originalRequest : RequestConfig)
| Refreshing (refresh_token : JsVal) (originalRequest : RequestConfig).

(** [return Promise.reject(transformError(error))] *)
Definition reject_transformed (error : AxiosError) : Handler :=
  match transformError (axios_error_val error) with
  | Normal v => Reject v
  | Throw e => Reject e
  end.

Definition status_is_401 (error : AxiosError) : bool :=
  match response error with
  | Some r => status r =? 401
  | None => false
  end.

(** Response error handler, up to its first [await]. *)
Definition onResponseError (error : AxiosError) (b : Browser) : Browser * Handler :=
  let originalRequest := config error in
  let isAuth := isAuthEndpoint (url originalRequest) in
  if status_is_401 error && negb (_retry originalRequest) && negb isAuth then
    let originalRequest := set_retry originalRequest in
    let tokens := getStoredTokens b in
    if truthy (get_opt "refresh_token" tokens) then
      (b, Refreshing (get_opt "refresh_token" tokens) originalRequest)
    else
      (b, reject_transformed (with_config originalRequest error))
  else
    (b, reject_transformed error).

(** [catch (refreshError)] *)
Definition onRefreshFailed (refreshError : JsVal) (originalRequest : RequestConfig)
    (b : Browser) : Browser * Handler :=
  let b :=
    if negb (isAuthEndpoint (url originalRequest)) then
      set_location_href "/" (clearStoredTokens b)
    else b in
  (b, Reject refreshError).

(** Continuation when [refreshTokens] resolves with [newTokens]. *)
Definition onRefreshed (newTokens : JsVal) (originalRequest : RequestConfig)
    (b : Browser) : Browser * Handler :=
  let b := storeTokens newTokens b in
  match get_prop "access_token" newTokens with
  | Normal tok =>
      (b, Reissue (set_header "Authorization" ("Bearer " +:+ to_string tok) originalRequest))
  | Throw e => onRefreshFailed e originalRequest b
  end.

(** *** Interleavings of the handler

    One logical thread runs the handlers; they interleave at the [await].
    The world records every [POST /auth/refresh] sent and the handlers
    suspended on one. *)
Record World := {
  browser : Browser;
  refreshCalls : list JsVal;
  waiting : list RequestConfig;
  settled : list Handler;
}.

Inductive Event :=
| ResponseError (error : AxiosError)
| RefreshSettled (i : nat) (outcome : Completion JsVal).

Definition step (w : World) (ev : Event) : World :=
  match ev with
  | ResponseError error =>
      match onResponseError error (browser w) with
      | (b, Refreshing tok req) =>
          {| browser := b;
             refreshCalls := refreshCalls w ++ [tok];
             waiting := waiting w ++ [req];
             settled := settled w |}
      | (b, h) =>
          {| browser := b; refreshCalls := refreshCalls w;
             waiting := waiting w; settled := settled w ++ [h] |}
      end
  | RefreshSettled i outcome =>
      match waiting w !! i with
      | None => w
      | Some req =>
          let '(b, h) :=
            match outcome with
            | Normal newTokens => onRefreshed newTokens req (browser w)
            | Throw refreshError => onRefreshFailed refreshError req (browser w)
            end in
          {| browser := b; refreshCalls := refreshCalls w;
             waiting := delete i (waiting w); settled := settled w ++ [h] |}
      end
  end.

Definition run (evs : list Event) (w : World) : World := fold_left step evs w.

End Api.

(** ** types/chat.ts *)
Module Types.

Inductive Role := user | assistant.

Record Source := {
  source_title : string;
  source : string;
  category : string;
  similarity : Z;
}.

Record Metadata := {
  tokens_used : option Z;
  sources : option (list Source);
  model : option string;
}.

Module Message.
Record t := {
  id : string;
  chat_id : string;
  role : Role;
  content : string;
  metadata : option Metadata;
  created_at : string;
}.
End Message.

Module Chat.
Record t := {
  id : string;
  user_id : option string;
  title : option string;
  is_anonymous : bool;
  created_at : string;
  updated_at : option string;
  message_count : option Z;
}.
End Chat.

Module ChatMessageRequest.
Record t := {
  message : string;
  chat_id : option string;
}.
End ChatMessageRequest.

(** The body of a send response.  The type promises [message]; the code
    tests for it at run time, so it is optional here. *)
Module ChatMessageResponse.
Record t := {
  message : option Message.t;
  chat : option Chat.t;
}.
End ChatMessageResponse.

Module PaginatedMessages.
Record t := {
  messages : list Message.t;
  total : Z;
  page : Z;
  page_size : Z;
  has_next : bool;
  has_previous : bool;
}.
End PaginatedMessages.

End Types.

(** ** services/chatService.ts *)
Module ChatService.
Import Types.

(** What [Date.now()] and [new Date().toISOString()] return at one instant. *)
Record Clock := {
  now : Z;
  toISOString : string;
}.

Definition WELCOME_MESSAGE : string :=
"
👋 Welcome to FinanceBot! I'm here to help you with questions about:


• **Account & Registration** - Creating accounts, verification, profile management

• **Payments & Transactions** - Transfers, payments, transaction history

• **Security & Fraud Prevention** - Account security, fraud prevention tips

• **Regulations & Compliance** - Financial regulations, compliance requirements

• **Technical Support** - App issues, troubleshooting, system support

How can I assist you today?
".

Definition getWelcomeMessage (c : Clock) : Message.t :=
  {| Message.id := "welcome-" +:+ show_Z (now c);
     Message.chat_id := "welcome";
     Message.role := assistant;
     Message.content := WELCOME_MESSAGE;
     Message.created_at := toISOString c;
     Message.metadata :=
       Some {| tokens_used := None; sources := None; model := None |} |}.

Definition handleChatError (error : JsVal) : JsVal :=
  if truthy error && String.eqb (typeof error) "object" && has_prop "detail" error then
    new_Error (get_opt "detail" error)
  else if instanceof_Error error then error
  else new_Error (VStr "An unexpected chat error occurred").

Definition empty_page : JsVal :=
  VObj PlainObject
    [("chats", VArr [] []); ("total", VNum 0); ("page", VNum 1);
     ("page_size", VNum 10); ("has_next", VBool false);
     ("has_previous", VBool false)].

(** [getChats], from the point where [api.get] settles with [r]. *)
Definition getChats (r : Completion (Api.AxiosResponse JsVal)) : Completion JsVal :=
  try_catch
    (let! response := r in
     let d := Api.body response in
     if negb (truthy d) || negb (String.eqb (typeof d) "object") then
       Normal empty_page
     else
       let! chats := get_prop "chats" d in
       if negb (isArray chats) then set_prop "chats" (VArr [] []) d
       else Normal d)
    (fun error => Throw (handleChatError error)).

(** [getMessages] and [sendMessage] return [response.data] or rethrow
    through [handleChatError]. *)
Definition getMessages (r : Completion (Api.AxiosResponse PaginatedMessages.t))
  : Completion PaginatedMessages.t :=
  try_catch (let! response := r in Normal (Api.body response))
            (fun error => Throw (handleChatError error)).

Definition sendMessage
    (r : Completion (Api.AxiosResponse (option ChatMessageResponse.t)))
  : Completion (option ChatMessageResponse.t) :=
  try_catch (let! response := r in Normal (Api.body response))
            (fun error => Throw (handleChatError error)).

Definition deleteChat (r : Completion (Api.AxiosResponse JsVal)) : Completion unit :=
  try_catch (let! response := r in Normal tt)
            (fun error => Throw (handleChatError error)).

End ChatService.

(** ** components/Chat/ChatContext.tsx: the ChatProvider *)
Module ChatContext.
Import Types Config.
Export ChatService(Clock, now, toISOString).

Record ChatState := {
  chats : list Chat.t;
  currentChat : option Chat.t;
  messages : list Message.t;
  isLoading : bool;
  isChatLoading : bool;
  error : option string;
  hasMoreMessages : bool;
  currentPage : Z;
}.

(** The backend calls and timers a callback starts. *)
Inductive Effect :=
| GetChats (page page_size : Z)
| GetChat (chatId : string)
| DeleteChat (chatId : string)
| GetMessages (chatId : string) (page page_size : Z)
| PostMessage (messageData : ChatMessageRequest.t)
| SetTimeout (ms : Z).

(** A stretch of a callback between two [await]s: state updates in
    program order, and the calls it starts. *)
Definition Action := ChatState -> ChatState * list Effect.

Definition skip : Action := fun st => (st, []).

Definition seq (a b : Action) : Action :=
  fun st =>
    let '(st1, e1) := a st in
    let '(st2, e2) := b st1 in
    (st2, e1 ++ e2).

Definition call (e : Effect) : Action := fun st => (st, [e]).

Definition setChats (f : list Chat.t -> list Chat.t) : Action := fun st =>
  ({| chats := f (chats st); currentChat := currentChat st; messages := messages st;
      isLoading := isLoading st; isChatLoading := isChatLoading st; error := error st;
      hasMoreMessages := hasMoreMessages st; currentPage := currentPage st |}, []).

Definition setCurrentChat (c : option Chat.t) : Action := fun st =>
  ({| chats := chats st; currentChat := c; messages := messages st;
      isLoading := isLoading st; isChatLoading := isChatLoading st; error := error st;
      hasMoreMessages := hasMoreMessages st; currentPage := currentPage st |}, []).

Definition setMessages (f : list Message.t -> list Message.t) : Action := fun st =>
  ({| chats := chats st; currentChat := currentChat st; messages := f (messages st);
      isLoading := isLoading st; isChatLoading := isChatLoading st; error := error st;
      hasMoreMessages := hasMoreMessages st; currentPage := currentPage st |}, []).

Definition setIsLoading (b : bool) : Action := fun st =>
  ({| chats := chats st; currentChat := currentChat st; messages := messages st;
      isLoading := b; isChatLoading := isChatLoading st; error := error st;
      hasMoreMessages := hasMoreMessages st; currentPage := currentPage st |}, []).

Definition setIsChatLoading (b : bool) : Action := fun st =>
  ({| chats := chats st; currentChat := currentChat st; messages := messages st;
      isLoading := isLoading st; isChatLoading := b; error := error st;
      hasMoreMessages := hasMoreMessages st; currentPage := currentPage st |}, []).

Definition setError (e : option string) : Action := fun st =>
  ({| chats := chats st; currentChat := currentChat st; messages := messages st;
      isLoading := isLoading st; isChatLoading := isChatLoading st; error := e;
      hasMoreMessages := hasMoreMessages st; currentPage := currentPage st |}, []).

Definition setHasMoreMessages (b : bool) : Action := fun st =>
  ({| chats := chats st; currentChat := currentChat st; messages := messages st;
      isLoading := isLoading st; isChatLoading := isChatLoading st; error := error st;
      hasMoreMessages := b; currentPage := currentPage st |}, []).

Definition setCurrentPage (n : Z) : Action := fun st =>
  ({| chats := chats st; currentChat := currentChat st; messages := messages st;
      isLoading := isLoading st; isChatLoading := isChatLoading st; error := error st;
      hasMoreMessages := hasMoreMessages st; currentPage := n |}, []).

End ChatContext.

Notation "a >> b" := (ChatContext.seq a b) (at level 62, left associativity).

Module ChatProvider.
Import Types Config.
Export ChatContext.

Definition initial : ChatState :=
  {| chats := []; currentChat := None; messages := [];
     isLoading := false; isChatLoading := false; error := None;
     hasMoreMessages := false; currentPage := 1 |}.

Section Callbacks.

(** [getErrorMessage] of lib/utils.ts turns a thrown value into the
    text stored in [error]; the module is not among the sources. *)
Variable getErrorMessage : JsVal -> string.

Definition getWelcomeMessage := ChatService.getWelcomeMessage.

(** *** loadChats *)

(** Up to [await ChatService.getChats({page: 1, page_size})] *)
Definition loadChats (isAuthenticated : bool) : Action :=
  if negb isAuthenticated then skip
  else
    setIsChatLoading true >>
    call (GetChats 1 CONSTANTS.DEFAULT_PAGE_SIZE).

(** [chats] is [response?.chats || []] *)
Definition loadChats_fulfilled (chats : list Chat.t) : Action :=
  setChats (fun _ => chats) >>
  match chats with
  | first :: _ =>
      fun st =>
        setCurrentChat
          (match currentChat st with
           | None => Some first
           | Some prevCurrentChat => Some prevCurrentChat
           end) st
  | [] => skip
  end >>
  setIsChatLoading false.

Definition loadChats_rejected (error : JsVal) : Action :=
  setError (Some (getErrorMessage error)) >>
  setChats (fun _ => []) >>
  setIsChatLoading false.

(** *** loadMessages *)

(** Up to [await ChatService.getMessages(chatId, {page, page_size})] *)
Definition loadMessages (chatId : string) (page : Z) : Action :=
  setIsChatLoading true >>
  call (GetMessages chatId page CONSTANTS.DEFAULT_PAGE_SIZE).

Definition loadMessages_fulfilled (page : Z) (response : PaginatedMessages.t) : Action :=
  (if page =? 1 then
     setMessages (fun _ => PaginatedMessages.messages response)
   else
     setMessages (fun prev => PaginatedMessages.messages response ++ prev)) >>
  setHasMoreMessages (PaginatedMessages.has_next response) >>
  setCurrentPage page >>
  setIsChatLoading false.

Definition loadMessages_rejected (error : JsVal) : Action :=
  setError (Some (getErrorMessage error)) >>
  setIsChatLoading false.

Definition loadMessages_settled (page : Z) (r : Completion PaginatedMessages.t) : Action :=
  match r with
  | Normal response => loadMessages_fulfilled page response
  | Throw error => loadMessages_rejected error
  end.

(** *** initializeAnonymousChat *)

(** The temporary chat of an anonymous user.  [c1] and [c2] are the clock
    readings of the two [new Date().toISOString()]. *)
Definition tempChat (c1 c2 : Clock) : Chat.t :=
  {| Chat.id := "temp";
     Chat.user_id := None;
     Chat.title := Some "Start New Chat with FinanceBot";
     Chat.is_anonymous := true;
     Chat.created_at := toISOString c1;
     Chat.updated_at := Some (toISOString c2);
     Chat.message_count := None |}.

Definition initializeAnonymousChat (c1 c2 c3 : Clock) : Action :=
  setIsChatLoading true >>
  setCurrentChat (Some (tempChat c1 c2)) >>
  setMessages (fun _ => [getWelcomeMessage c3]) >>
  setIsChatLoading false.

(** *** The two effects *)

(** On mount, and when [isAuthenticated] changes *)
Definition onMount (isAuthenticated : bool) (c1 c2 c3 : Clock) : Action :=
  if isAuthenticated then loadChats isAuthenticated
  else initializeAnonymousChat c1 c2 c3.

(** When [currentChat?.id] (or [isAuthenticated]) changes *)
Definition onCurrentChatChange (isAuthenticated : bool) : Action :=
  fun st =>
    match currentChat st with
    | Some chat =>
        if isAuthenticated && negb (String.eqb (Chat.id chat) "temp") then
          loadMessages (Chat.id chat) 1 st
        else skip st
    | None => skip st
    end.

(** *** createNewChat *)
Definition createNewChat (c : Clock) : Action :=
  setCurrentChat None >>
  setMessages (fun _ => [getWelcomeMessage c]).

(** *** switchChat *)
Definition switchChat (chatId : string) : Action :=
  setIsChatLoading true >>
  setError None >>
  call (GetChat chatId).

(** [getChat] resolved: runs up to the [await] inside [loadMessages] *)
Definition switchChat_fulfilled (chatId : string) (chat : Chat.t) : Action :=
  setCurrentChat (Some chat) >>
  setCurrentPage 1 >>
  loadMessages chatId 1.

Definition switchChat_rejected (error : JsVal) : Action :=
  setError (Some (getErrorMessage error)) >>
  setIsChatLoading false.

(** A whole [switchChat(chatId)], nothing else running in between: [rc]
    is how [getChat] settles and [rm] how the [getMessages] inside
    [loadMessages] does.  [loadMessages] catches its own errors, so the
    [finally] of [switchChat] runs after it either way. *)
Definition switchChat_run (chatId : string) (rc : Completion Chat.t)
    (rm : Completion PaginatedMessages.t) : Action :=
  switchChat chatId >>
  match rc with
  | Normal chat =>
      switchChat_fulfilled chatId chat >>
      loadMessages_settled 1 rm >>
      setIsChatLoading false
  | Throw error => switchChat_rejected error
  end.

(** *** deleteChat *)

(** Up to [await ChatService.deleteChat(chatId)] *)
Definition deleteChat (chatId : string) : Action :=
  setIsLoading true >>
  setError None >>
  call (DeleteChat chatId).

(** The [setChats] updater with the updates it makes on the way, then
    [finally].  [currentChat_id] is [currentChat?.id] as the callback
    closed over it. *)
Definition deleteChat_fulfilled (c : Clock) (isAuthenticated : bool)
    (currentChat_id : option string) (chatId : string) : Action :=
  fun st =>
    let updatedChats :=
      List.filter (fun chat => negb (String.eqb (Chat.id chat) chatId)) (chats st) in
    ((if bool_decide (currentChat_id = Some chatId) then
        match updatedChats with
        | nextChat :: _ =>
            setCurrentChat (Some nextChat) >>
            setCurrentPage 1 >>
            loadMessages (Chat.id nextChat) 1
        | [] =>
            if isAuthenticated then createNewChat c
            else
              setCurrentChat None >>
              setMessages (fun _ => [getWelcomeMessage c])
        end
      else skip) >>
     setChats (fun _ => updatedChats) >>
     setIsLoading false) st.

Definition deleteChat_rejected (error : JsVal) : Action :=
  setError (Some (getErrorMessage error)) >>
  setIsLoading false.

(** A whole [deleteChat(chatId)] whose backend call settles with [r]
    before anything else runs. *)
Definition deleteChat_run (c : Clock) (isAuthenticated : bool) (chatId : string)
    (r : Completion unit) : Action :=
  fun st =>
    (deleteChat chatId >>
     match r with
     | Normal _ =>
         deleteChat_fulfilled c isAuthenticated (Chat.id <$> currentChat st) chatId
     | Throw error => deleteChat_rejected error
     end) st.

(** *** sendMessage *)

(** The white space that [trim] removes.  The text is held as UTF-8
    bytes: the ASCII characters tab, line feed, vertical tab, form feed,
    carriage return and space take one byte, U+00A0 takes two, and the
    others (U+1680, U+2000 to U+200A, U+2028, U+2029, U+202F, U+205F,
    U+3000, U+FEFF) three. *)
Definition is_whitespace (a : ascii) : bool :=
  let n := nat_of_ascii a in
  (Nat.eqb n 32 || (Nat.leb 9 n && Nat.leb n 13))%bool.

Definition is_whitespace2 (a b : ascii) : bool :=
  (Nat.eqb (nat_of_ascii a) 194 && Nat.eqb (nat_of_ascii b) 160)%bool.

Definition is_whitespace3 (a b c : ascii) : bool :=
  let x := nat_of_ascii a in
  let y := nat_of_ascii b in
  let z := nat_of_ascii c in
  ((Nat.eqb x 225 && Nat.eqb y 154 && Nat.eqb z 128) ||
   (Nat.eqb x 226 && Nat.eqb y 128 &&
    ((Nat.leb 128 z && Nat.leb z 138) || Nat.eqb z 168 || Nat.eqb z 169 || Nat.eqb z 175)) ||
   (Nat.eqb x 226 && Nat.eqb y 129 && Nat.eqb z 159) ||
   (Nat.eqb x 227 && Nat.eqb y 128 && Nat.eqb z 128) ||
   (Nat.eqb x 239 && Nat.eqb y 187 && Nat.eqb z 191))%bool.

(** [!text.trim()]: the text is empty or consists of white space *)
Fixpoint blank (text : string) : bool :=
  match text with
  | EmptyString => true
  | String a rest =>
      if is_whitespace a then blank rest
      else
        match rest with
        | EmptyString => false
        | String b rest2 =>
            if is_whitespace2 a b then blank rest2
            else
              match rest2 with
              | EmptyString => false
              | String c rest3 =>
                  if is_whitespace3 a b c then blank rest3 else false
              end
        end
  end.

Definition APOLOGY : string :=
  "I'm sorry, I'm having trouble processing your request right now. Please try again later.".

(** [currentChat?.id || temp], where temp is the sentinel id *)
Definition id_or_temp (currentChat_id : option string) : string :=
  match currentChat_id with
  | Some i => if String.eqb i "" then "temp" else i
  | None => "temp"
  end.

Definition userMessage (c : Clock) (currentChat_id : option string) (text : string)
  : Message.t :=
  {| Message.id := "user-" +:+ show_Z (now c);
     Message.chat_id := id_or_temp currentChat_id;
     Message.role := user;
     Message.content := text;
     Message.created_at := toISOString c;
     Message.metadata := None |}.

Definition errorMsg (c : Clock) (currentChat_id : option string) : Message.t :=
  {| Message.id := "error-" +:+ show_Z (now c);
     Message.chat_id := id_or_temp currentChat_id;
     Message.role := assistant;
     Message.content := APOLOGY;
     Message.created_at := toISOString c;
     Message.metadata := None |}.

Definition messageData (currentChat_id : option string) (text : string)
  : ChatMessageRequest.t :=
  {| ChatMessageRequest.message := text;
     ChatMessageRequest.chat_id :=
       if bool_decide (currentChat_id = Some "temp") then None else currentChat_id |}.

Definition maxRetries : Z := 2.

(** The shape test of the [catch] in the retry loop *)
Definition is_api_error (error : JsVal) : bool :=
  truthy error && String.eqb (typeof error) "object" &&
  has_prop "status_code" error && has_prop "type" error.

Definition is_network_error (apiError : JsVal) : bool :=
  is_num 0 (get_opt "status_code" apiError) ||
  is_str "network_error" (get_opt "type" apiError).

(** The [while (retryCount <= maxRetries)] loop.  [attempt n] is how
    the [n]-th call of [ChatService.sendMessage(messageData)] settles.
    The result is what the loop leaves in [response] or throws, with
    the calls and timers it started. *)
Fixpoint retry_loop (fuel : nat) (md : ChatMessageRequest.t)
    (attempt : nat -> Completion (option ChatMessageResponse.t))
    (calls : nat) (retryCount : Z)
  : option (Completion (option ChatMessageResponse.t) * list Effect) :=
  if retryCount <=? maxRetries then
    match fuel with
    | O => None
    | S fuel =>
        match attempt calls with
        | Normal response => Some (Normal response, [PostMessage md])
        | Throw error =>
            if is_api_error error then
              if is_network_error error then
                let retryCount := retryCount + 1 in
                if retryCount <=? maxRetries then
                  match retry_loop fuel md attempt (S calls) retryCount with
                  | Some (r, effs) =>
                      Some (r, PostMessage md :: SetTimeout (1000 * retryCount) :: effs)
                  | None => None
                  end
                else Some (Throw error, [PostMessage md])
              else Some (Throw error, [PostMessage md])
            else Some (Throw error, [PostMessage md])
        end
    end
  else Some (Normal None, []).

Definition send_with_retry (md : ChatMessageRequest.t)
    (attempt : nat -> Completion (option ChatMessageResponse.t)) :=
  retry_loop (Z.to_nat (maxRetries + 1)) md attempt 0 0.

(** The rest of the [try] block once the loop has left [response] *)
Definition sendMessage_fulfilled (currentChat_id : option string)
    (response : option ChatMessageResponse.t) : Completion Action :=
  match response with
  | Some resp =>
      match ChatMessageResponse.message resp with
      | Some m =>
          Normal
            (setMessages (fun prev => prev ++ [m]) >>
             match ChatMessageResponse.chat resp with
             | Some chat =>
                 if bool_decide (Some (Chat.id chat) <> currentChat_id) then
                   setCurrentChat (Some chat) >>
                   setChats (fun prev => chat :: prev)
                 else skip
             | None => skip
             end)
      | None => Throw (new_Error (VStr "Invalid response from server"))
      end
  | None => Throw (new_Error (VStr "Invalid response from server"))
  end.

(** [catch (error)] of [sendMessage] *)
Definition sendMessage_rejected (c : Clock) (currentChat_id : option string)
    (error : JsVal) : Action :=
  setError (Some (getErrorMessage error)) >>
  setMessages (fun prev => prev ++ [errorMsg c currentChat_id]).

(** What the [try] block of [sendMessage] comes to: the updates of the
    success path, or the value the [catch] receives. *)
Definition send_result (currentChat_id : option string)
    (r : Completion (option ChatMessageResponse.t)) : Completion Action :=
  let! response := r in sendMessage_fulfilled currentChat_id response.

(** A whole [sendMessage(text)], nothing else running in between.
    [t0] is the clock at the call, [t1] the clock when the [catch] runs. *)
Definition sendMessage (t0 t1 : Clock) (text : string)
    (attempt : nat -> Completion (option ChatMessageResponse.t))
  : ChatState -> option (ChatState * list Effect) :=
  fun st =>
    if blank text || isLoading st then Some (skip st)
    else
      let currentChat_id := Chat.id <$> currentChat st in
      match send_with_retry (messageData currentChat_id text) attempt with
      | None => None
      | Some (r, effs) =>
          Some ((setMessages (fun prev => prev ++ [userMessage t0 currentChat_id text]) >>
                 setIsLoading true >>
                 setError None >>
                 (fun st => (st, effs)) >>
                 match send_result currentChat_id r with
                 | Normal updates => updates
                 | Throw error => sendMessage_rejected t1 currentChat_id error
                 end >>
                 setIsLoading false) st)
      end.

(** *** loadMoreMessages *)
Definition loadMoreMessages : Action :=
  fun st =>
    match currentChat st with
    | None => skip st
    | Some chat =>
        if negb (hasMoreMessages st) || isChatLoading st then skip st
        else loadMessages (Chat.id chat) (currentPage st + 1) st
    end.

(** *** clearChat, clearError *)
Definition clearChat (c : Clock) : Action :=
  setMessages (fun _ => [getWelcomeMessage c]).

Definition clearError : Action := setError None.

End Callbacks.

End ChatProvider.

(** ** services/authService.ts *)
Module AuthService.
Import Config.

Module API_ENDPOINTS.
Definition LOGIN : string := "/auth/login".
Definition REGISTER : string := "/auth/register".
Definition SIGNIN : string := "/auth/signin".
Definition REFRESH : string := "/auth/refresh".
Definition LOGOUT : string := "/auth/logout".
Definition ME : string := "/auth/me".
Definition FORGOT_PASSWORD : string := "/auth/forgot-password".
Definition RESET_PASSWORD : string := "/auth/reset-password".
End API_ENDPOINTS.

Definition handleAuthError (error : JsVal) : JsVal :=
  if truthy error && String.eqb (typeof error) "object" && has_prop "detail" error then
    VObj PlainObject
      [("detail", get_opt "detail" error);
       ("status_code", or_else (get_opt "status_code" error) (VNum 500))]
  else if instanceof_Error error then
    VObj PlainObject
      [("detail", get_opt "message" error); ("status_code", VNum 500)]
  else
    VObj PlainObject
      [("detail", VStr "An unexpected authentication error occurred");
       ("status_code", VNum 500)].

(** [login], [register] and [refreshToken] return [response.data.data] *)
Definition login (r : Completion (Api.AxiosResponse JsVal)) : Completion JsVal :=
  try_catch
    (let! response := r in get_prop "data" (Api.body response))
    (fun error => Throw (handleAuthError error)).

(** [signin] and [getCurrentUser] return [response.data] *)
Definition signin (r : Completion (Api.AxiosResponse JsVal)) : Completion JsVal :=
  try_catch
    (let! response := r in Normal (Api.body response))
    (fun error => Throw (handleAuthError error)).

Definition getCurrentUser (r : Completion (Api.AxiosResponse JsVal)) : Completion JsVal :=
  try_catch
    (let! response := r in Normal (Api.body response))
    (fun error => Throw (handleAuthError error)).

(** [logout] only logs a failure *)
Definition logout (r : Completion (Api.AxiosResponse JsVal)) : Completion unit :=
  try_catch (let! response := r in Normal tt) (fun error => Normal tt).

End AuthService.

(** ** components/Auth/AuthContext.tsx: the AuthProvider *)
Module AuthContext.
Import Config Api.

Record AuthState := {
  user : JsVal;
  isLoading : bool;
  isInitializing : bool;
  error : option string;
}.

Inductive AuthEffect :=
| CallGetCurrentUser
| CallLogout
| Navigate (path : string).

Definition setUser (u : JsVal) (s : AuthState) : AuthState :=
  {| user := u; isLoading := isLoading s; isInitializing := isInitializing s;
     error := error s |}.

Definition setIsInitializing (v : bool) (s : AuthState) : AuthState :=
  {| user := user s; isLoading := isLoading s; isInitializing := v; error := error s |}.

Definition setIsLoading (v : bool) (s : AuthState) : AuthState :=
  {| user := user s; isLoading := v; isInitializing := isInitializing s; error := error s |}.

Definition setError (e : option string) (s : AuthState) : AuthState :=
  {| user := user s; isLoading := isLoading s; isInitializing := isInitializing s;
     error := e |}.

Definition initial : AuthState :=
  {| user := VNull; isLoading := false; isInitializing := true; error := None |}.

Section Provider.

(** The [storage] helper of lib/utils.ts is not among the sources: what
    its [get], [set] and [remove] do to [localStorage] is left open here. *)
Variable storage_get : string -> Browser -> Completion JsVal.
Variable storage_set : string -> JsVal -> Browser -> Browser.
Variable storage_remove : string -> Browser -> Browser.

(** [initializeAuth].  [me b] is how [AuthService.getCurrentUser()]
    settles when it is called in the browser [b]: the value it returns or
    throws, and the browser as the interceptors of lib/api.ts leave it,
    which may have stored refreshed tokens, or removed the token entry and
    set the location. *)
Definition initializeAuth (me : Browser -> Browser * Completion JsVal) (b : Browser)
    (s : AuthState) : Browser * AuthState * list AuthEffect :=
  let s := setIsInitializing true s in
  let '(b, s, effs) :=
    match (let! savedUser := storage_get STORAGE_KEYS.USER b in
           let! savedTokens := storage_get STORAGE_KEYS.TOKENS b in
           Normal (savedUser, savedTokens)) with
    | Normal (savedUser, savedTokens) =>
        if truthy savedUser && truthy savedTokens then
          let '(b, r) := me b in
          match r with
          | Normal currentUser => (b, setUser currentUser s, [CallGetCurrentUser])
          | Throw _ =>
              (storage_remove STORAGE_KEYS.TOKENS (storage_remove STORAGE_KEYS.USER b),
               setUser VNull s, [CallGetCurrentUser])
          end
        else (b, s, [])
    | Throw _ =>
        (storage_remove STORAGE_KEYS.TOKENS (storage_remove STORAGE_KEYS.USER b), s, [])
    end in
  (b, setIsInitializing false s, effs).

(** [logout].  [r b] is how [AuthService.logout()] settles when it is
    called in the browser [b]: its outcome, which [logout] ignores, and
    the browser as the interceptors of lib/api.ts leave it. *)
Definition logout (r : Browser -> Browser * Completion unit) (b : Browser) (s : AuthState)
  : Browser * AuthState * list AuthEffect :=
  let s := setError None (setIsLoading true s) in
  let '(b, _) := r b in
  (storage_remove STORAGE_KEYS.TOKENS (storage_remove STORAGE_KEYS.USER b),
   setIsLoading false (setUser VNull s),
   [CallLogout; Navigate "/"]).

(** The request of [AuthService.getCurrentUser()] as it enters the
    request interceptor. *)
Definition me_request : RequestConfig :=
  {| url := Some AuthService.API_ENDPOINTS.ME; method := "get"; data := VUndefined;
     headers := ∅; _retry := false |}.

(** [login] and [register] call [getCurrentUser] right after the tokens
    arrived, before anything is stored. *)
Definition login_getCurrentUser (tokens : JsVal) (b : Browser) : Browser * RequestConfig :=
  onRequest me_request b.

(** [signin] stores the tokens first. *)
Definition signin_getCurrentUser (tokens : JsVal) (b : Browser) : Browser * RequestConfig :=
  onRequest me_request (storage_set STORAGE_KEYS.TOKENS tokens b).

End Provider.

End AuthContext.

(** ** The provider with its message loads in flight

    The state of the provider together with the [getMessages] requests
    that [loadMessages] has sent and that have not settled yet. *)
Module Loads.
Import Types Config ChatProvider.

Record Sys := {
  state : ChatState;
  inFlight : list (string * Z);
}.

Inductive Event :=
| LoadMessages (chatId : string) (page : Z)
| LoadMore
| Settled (i : nat) (r : Completion PaginatedMessages.t).

(** The message requests among the effects of a callback *)
Definition requested (effs : list Effect) : list (string * Z) :=
  omap (fun e => match e with
                 | GetMessages chatId page _ => Some (chatId, page)
                 | _ => None
                 end) effs.

Section Step.
Variable getErrorMessage : JsVal -> string.

Definition step (sys : Sys) (ev : Event) : Sys :=
  match ev with
  | LoadMessages chatId page =>
      let '(st, effs) := loadMessages chatId page (state sys) in
      {| state := st; inFlight := inFlight sys ++ requested effs |}
  | LoadMore =>
      let '(st, effs) := loadMoreMessages (state sys) in
      {| state := st; inFlight := inFlight sys ++ requested effs |}
  | Settled i r =>
      match inFlight sys !! i with
      | Some (_, page) =>
          {| state := fst (loadMessages_settled getErrorMessage page r (state sys));
             inFlight := delete i (inFlight sys) |}
      | None => sys
      end
  end.

Definition run (evs : list Event) (sys : Sys) : Sys := fold_left step evs sys.

End Step.

End Loads.

(** ** A session of an anonymous user

    What can happen to the ChatProvider of an anonymous user, as a list of
    operations applied one after the other: the callbacks that need no
    chat list, and the effect on a change of the current chat. *)
Module Session.
Import Types Config ChatProvider.

Inductive Op :=
| Send (t0 t1 : Clock) (text : string)
       (attempt : nat -> Completion (option ChatMessageResponse.t))
| NewChat (c : Clock)
| ClearChat (c : Clock)
| LoadMore
| ClearError
| ChatChanged.

Section Ops.
Variable getErrorMessage : JsVal -> string.

Definition apply (op : Op) (st : ChatState) : ChatState * list Effect :=
  match op with
  | Send t0 t1 text attempt =>
      match sendMessage getErrorMessage t0 t1 text attempt st with
      | Some r => r
      | None => (st, [])
      end
  | NewChat c => createNewChat c st
  | ClearChat c => clearChat c st
  | LoadMore => loadMoreMessages st
  | ClearError => clearError st
  | ChatChanged => onCurrentChatChange false st
  end.

Fixpoint run (ops : list Op) (st : ChatState) : ChatState * list Effect :=
  match ops with
  | [] => (st, [])
  | op :: rest =>
      let '(st1, e1) := apply op st in
      let '(st2, e2) := run rest st1 in
      (st2, e1 ++ e2)
  end.

End Ops.

(** A backend call that names the sentinel conversation. *)
Definition mentions_temp (e : Effect) : bool :=
  match e with
  | GetChat i | DeleteChat i | GetMessages i _ _ => String.eqb i "temp"
  | PostMessage md =>
      bool_decide (ChatMessageRequest.chat_id md = Some "temp")
  | GetChats _ _ | SetTimeout _ => false
  end.

Definition is_post_or_timer (e : Effect) : bool :=
  match e with
  | PostMessage _ | SetTimeout _ => true
  | _ => false
  end.

End Session.

(** ** Vocabulary for the further properties *)
Module Terms.
Import Types Config Api ChatProvider.

(** The test of the response error handler that decides for a refresh:
    a 401, on a request not retried yet, not for an auth endpoint, with a
    refresh token in storage. *)
Definition sends_refresh (e : AxiosError) (b : Browser) : bool :=
  status_is_401 e && negb (_retry (config e)) &&
  negb (isAuthEndpoint (url (config e))) &&
  truthy (get_opt "refresh_token" (getStoredTokens b)).

(** The error object [transformError] makes of an axios error. *)
Definition normalized (e : AxiosError) : JsVal :=
  match response e with
  | Some r =>
      VObj PlainObject
        [("detail", or_else (get_opt "detail" (body r)) (VStr "An error occurred"));
         ("status_code", VNum (status r));
         ("type", get_opt "type" (body r))]
  | None =>
      if request e then
        VObj PlainObject
          [("detail", VStr "Network error - please check your connection");
           ("status_code", VNum 0);
           ("type", VStr "network_error")]
      else
        VObj PlainObject
          [("detail", or_else (VStr (message e)) (VStr "An unexpected error occurred"));
           ("status_code", VNum 500);
           ("type", VStr "unknown_error")]
  end.

(** A refresh call that fails is rejected by axios with an axios error. *)
Definition refresh_fails_as_axios (ev : Api.Event) : Prop :=
  match ev with
  | RefreshSettled _ (Throw v) => exists e, v = axios_error_val e
  | _ => True
  end.

(** A rejection that, rethrown by [ChatService], fails the shape test of
    the retry loop. *)
Definition not_retried (h : Handler) : Prop :=
  match h with
  | Reject v => is_api_error (ChatService.handleChatError v) = false
  | _ => True
  end.

(** Every effect is the POST of [md] or a timer. *)
Definition posts_of (md : ChatMessageRequest.t) (effs : list Effect) : Prop :=
  Forall (fun e => e = PostMessage md \/ exists ms, e = SetTimeout ms) effs.

End Terms.

(** * Statements of the specification and scenarios *)

(** The claims of the specification that the code is compared with, in
    the specification's words, and the concrete runs used below. *)
Module Spec.
Import Types Config Api ChatProvider.

(** The body is a non-null object (an array is one too). *)
Definition is_object (d : JsVal) : bool :=
  match d with
  | VObj _ _ | VArr _ _ => true
  | _ => false
  end.

(** [createNew()] is local-only and leaves no current conversation, the
    welcome message alone in the window, and pagination reset. *)
Definition createNew_resets (c : Clock) (st : ChatState) : Prop :=
  let '(st', effs) := createNewChat c st in
  effs = [] /\
  currentChat st' = None /\
  messages st' = [getWelcomeMessage c] /\
  currentPage st' = 1 /\
  hasMoreMessages st' = false.

(** With a message load in flight and the load flag set, a call of
    [loadMessages] is dropped: no request is sent, and the window and the
    pagination cursor stay as they are. *)
Definition load_is_dropped (getErrorMessage : JsVal -> string) (sys : Loads.Sys)
    (chatId : string) (page : Z) : Prop :=
  Loads.inFlight sys <> [] ->
  isChatLoading (Loads.state sys) = true ->
  let sys' := Loads.step getErrorMessage sys (Loads.LoadMessages chatId page) in
  Loads.inFlight sys' = Loads.inFlight sys /\
  messages (Loads.state sys') = messages (Loads.state sys) /\
  hasMoreMessages (Loads.state sys') = hasMoreMessages (Loads.state sys) /\
  currentPage (Loads.state sys') = currentPage (Loads.state sys).

(** A response for [chatId] that arrives when [chatId] is no longer the
    current conversation is discarded. *)
Definition stale_discarded (chatId : string) (page : Z)
    (response : PaginatedMessages.t) (st : ChatState) : Prop :=
  Chat.id <$> currentChat st <> Some chatId ->
  let st' := fst (loadMessages_fulfilled page response st) in
  messages st' = messages st /\
  hasMoreMessages st' = hasMoreMessages st /\
  currentPage st' = currentPage st.

(** A [sendMessage] call fails with [error]: the retry loop or the
    validation of the response throws it into the outer [catch]. *)
Definition send_fails (currentChat_id : option string) (text : string)
    (attempt : nat -> Completion (option ChatMessageResponse.t)) (error : JsVal) : Prop :=
  exists r effs,
    send_with_retry (messageData currentChat_id text) attempt = Some (r, effs) /\
    send_result currentChat_id r = Throw error.

(** The normalized NetworkError of [transformError]. *)
Definition NetworkError : JsVal :=
  VObj PlainObject
    [("detail", VStr "Network error - please check your connection");
     ("status_code", VNum 0);
     ("type", VStr "network_error")].

(** [a] was created before [b].  The [created_at] texts are ISO 8601
    instants in UTC, as [toISOString] writes them, which the order of the
    characters orders by time. *)
Definition before (a b : Message.t) : Prop :=
  String.ltb (Message.created_at a) (Message.created_at b) = true.

(** Strictly chronological: every message is before all later ones. *)
Definition chronological (w : list Message.t) : Prop := StronglySorted before w.

Definition distinct_ids (w : list Message.t) : Prop := NoDup (Message.id <$> w).

Definition window_ok (w : list Message.t) : Prop :=
  chronological w /\ distinct_ids w.

(** A run of successful [loadMessages] calls, each given with its page
    and its response, in the order the responses arrive. *)
Definition load_all (loads : list (Z * PaginatedMessages.t)) (st : ChatState)
  : ChatState :=
  fold_left (fun st load => fst (loadMessages_fulfilled load.1 load.2 st)) loads st.

Definition increasing_pages (loads : list (Z * PaginatedMessages.t)) : Prop :=
  StronglySorted Z.lt (fst <$> loads).

(** The window after any run of loads with increasing pages is strictly
    chronological and has no id twice. *)
Definition paging_keeps_window_ok (loads : list (Z * PaginatedMessages.t))
    (st : ChatState) : Prop :=
  window_ok (messages st) ->
  increasing_pages loads ->
  Forall (fun load => window_ok (PaginatedMessages.messages load.2)) loads ->
  window_ok (messages (load_all loads st)).

(** The window that a response for [page] makes of the window [w]. *)
Definition window_after (page : Z) (response : PaginatedMessages.t)
    (w : list Message.t) : list Message.t :=
  if page =? 1 then PaginatedMessages.messages response
  else PaginatedMessages.messages response ++ w.

(** The response fits the window: its messages are strictly
    chronological with distinct ids and, for a page after the first, each
    of them is older than every message of the window and has another id. *)
Definition fits (page : Z) (response : PaginatedMessages.t) (w : list Message.t) : Prop :=
  window_ok (PaginatedMessages.messages response) /\
  (page <> 1 ->
   Forall (fun m => Forall (fun m' => before m m' /\ Message.id m <> Message.id m') w)
          (PaginatedMessages.messages response)).

Fixpoint loads_fit (w : list Message.t) (loads : list (Z * PaginatedMessages.t)) : Prop :=
  match loads with
  | [] => True
  | (page, response) :: rest =>
      fits page response w /\ loads_fit (window_after page response w) rest
  end.

(** A 401 that makes the handler refresh: the request was not retried
    yet and is not for an auth endpoint. *)
Definition expired (e : AxiosError) : Prop :=
  status_is_401 e = true /\
  _retry (config e) = false /\
  isAuthEndpoint (url (config e)) = false.

(** Single flight: no refresh call was sent yet; the first 401 starts
    one, and however many more requests get a 401 while it is in flight,
    at most one refresh call is sent. *)
Definition single_flight (w : World) (errors : list AxiosError) : Prop :=
  refreshCalls w = [] ->
  Forall expired errors ->
  (length (refreshCalls (Api.run (ResponseError <$> errors) w)) <= 1)%nat.

(** Both persisted entries are gone. *)
Definition auth_state_cleared (b : Browser) : Prop :=
  localStorage b !! STORAGE_KEYS.USER = None /\
  localStorage b !! STORAGE_KEYS.TOKENS = None.

(** The number of [POST /chat/message] calls among the effects. *)
Definition posts (effs : list Effect) : nat :=
  length (List.filter (fun e => match e with PostMessage _ => true | _ => false end) effs).

(** The delays of the timers among the effects, in order. *)
Definition delays (effs : list Effect) : list Z :=
  omap (fun e => match e with SetTimeout ms => Some ms | _ => None end) effs.

End Spec.

Module Scenario.
Import Types Config Api ChatProvider.

(** A stand-in for [getErrorMessage] of lib/utils.ts in the runs below. *)
Definition getErrorMessage (error : JsVal) : string :=
  to_string (get_opt "message" error).

(** The server cannot be reached: axios rejects with an error that has a
    request and no response. *)
Definition unreachable : AxiosError :=
  {| message := "Network Error";
     config := {| url := Some "/chat/message"; method := "post"; data := VUndefined;
                  headers := ∅; _retry := false |};
     request := true;
     response := None |}.

Definition signed_out : Browser :=
  {| localStorage := ∅; location_href := "/" |}.

Definition tokens : JsVal :=
  VObj PlainObject
    [("access_token", VStr "access-1"); ("refresh_token", VStr "refresh-1");
     ("token_type", VStr "bearer"); ("expires_in", VNum 1800)].

Definition profile : JsVal :=
  VObj PlainObject
    [("id", VStr "u1"); ("email", VStr "ann@example.org"); ("username", VStr "ann");
     ("is_active", VBool true); ("is_verified", VBool true)].

Definition signed_in : Browser :=
  {| localStorage :=
       <[STORAGE_KEYS.USER := Ser profile]>
         (<[STORAGE_KEYS.TOKENS := Ser tokens]> ∅);
     location_href := "/chat" |}.

(** The server answers 401 to a first try of [GET u]. *)
Definition expired_401 (u : string) : AxiosError :=
  {| message := "Request failed with status code 401";
     config := {| url := Some u; method := "get"; data := VUndefined;
                  headers := <["Authorization" := "Bearer access-1"]> ∅;
                  _retry := false |};
     request := true;
     response := Some {| status := 401;
                         body := VObj PlainObject [("detail", VStr "Token expired")] |} |}.

(** The refresh endpoint answers 401 as well. *)
Definition refresh_refused : JsVal :=
  axios_error_val
    {| message := "Request failed with status code 401";
       config := {| url := Some "http://localhost:8000/auth/refresh"; method := "post";
                    data := VObj PlainObject [("refresh_token", VStr "refresh-1")];
                    headers := ∅; _retry := false |};
       request := true;
       response := Some {| status := 401;
                           body := VObj PlainObject
                                     [("detail", VStr "Invalid refresh token")] |} |}.

Definition idle : World :=
  {| browser := signed_in; refreshCalls := []; waiting := []; settled := [] |}.

Definition t0 : Clock :=
  {| now := 1700000000000; toISOString := "2023-11-14T22:13:20.000Z" |}.
Definition t1 : Clock :=
  {| now := 1700000003000; toISOString := "2023-11-14T22:13:23.000Z" |}.

Definition chat (i : string) : Chat.t :=
  {| Chat.id := i; Chat.user_id := Some "u1"; Chat.title := None;
     Chat.is_anonymous := false; Chat.created_at := "2023-11-01T08:00:00.000Z";
     Chat.updated_at := None; Chat.message_count := None |}.

Definition msg (i chat_id : string) (r : Role) (created_at : string) : Message.t :=
  {| Message.id := i; Message.chat_id := chat_id; Message.role := r;
     Message.content := "text of " +:+ i; Message.metadata := None;
     Message.created_at := created_at |}.

Definition a1 := msg "a1" "A" user "2023-11-01T08:00:01.000Z".
Definition a2 := msg "a2" "A" assistant "2023-11-01T08:00:02.000Z".
Definition a3 := msg "a3" "A" user "2023-11-01T08:00:03.000Z".
Definition a4 := msg "a4" "A" assistant "2023-11-01T08:00:04.000Z".
Definition a5 := msg "a5" "A" user "2023-11-01T08:00:05.000Z".
Definition a6 := msg "a6" "A" assistant "2023-11-01T08:00:06.000Z".

Definition page_of (ms : list Message.t) (n : Z) (more : bool) : PaginatedMessages.t :=
  {| PaginatedMessages.messages := ms; PaginatedMessages.total := 7;
     PaginatedMessages.page := n; PaginatedMessages.page_size := 3;
     PaginatedMessages.has_next := more;
     PaginatedMessages.has_previous := negb (n =? 1) |}.

Definition run (a : Action) (st : ChatState) : ChatState := fst (a st).

(** Authenticated start: the list [A; B] loads, [A] becomes current and
    its first page arrives. *)
Definition listed : ChatState :=
  run (loadChats_fulfilled [chat "A"; chat "B"]) (run (loadChats true) initial).

Definition page1_loaded : ChatState :=
  run (loadMessages_fulfilled 1 (page_of [a4; a5; a6] 1 true))
      (run (loadMessages "A" 1) listed).

(** then [loadMoreMessages] brings page 2 *)
Definition page2_loaded : ChatState :=
  run (loadMessages_fulfilled 2 (page_of [a1; a2; a3] 2 true))
      (run loadMoreMessages page1_loaded).

(** Page 1 of [A] is shown and [loadMoreMessages] has asked for page 2:
    one message load is in flight. *)
Definition loading_more : Loads.Sys :=
  Loads.step getErrorMessage
    {| Loads.state := page1_loaded; Loads.inFlight := [] |} Loads.LoadMore.

(** A page-2 request for [A] is in flight when the user opens a new chat. *)
Definition navigated_away : ChatState :=
  run (createNewChat t0) (run loadMoreMessages page1_loaded).

(** One way the [storage] helper can work: JSON text under the key. *)
Definition storage_get (k : string) (b : Browser) : Completion JsVal :=
  Normal (match localStorage b !! k with
          | Some (Ser v) => v
          | _ => VNull
          end).

Definition storage_set (k : string) (v : JsVal) (b : Browser) : Browser :=
  {| localStorage := <[k := JSON_stringify v]> (localStorage b);
     location_href := location_href b |}.

Definition storage_remove (k : string) (b : Browser) : Browser :=
  {| localStorage := delete k (localStorage b); location_href := location_href b |}.

(** The browser after the failed refresh of a signed-in user: the token
    entry is gone and the page is back at the start. *)
Definition expired_session : Browser :=
  set_location_href "/" (clearStoredTokens signed_in).

(** The tokens a successful refresh call answers with. *)
Definition renewed_tokens : JsVal :=
  VObj PlainObject
    [("access_token", VStr "access-2"); ("refresh_token", VStr "refresh-2");
     ("token_type", VStr "bearer"); ("expires_in", VNum 1800)].

(** [AuthService.getCurrentUser()] for a returning user whose access token
    has expired: the request passes the request interceptor, the server
    answers 401, the response interceptor refreshes and stores the new
    tokens, and the reissued request is answered with the profile. *)
Definition me_after_expiry (b : Browser) : Browser * Completion JsVal :=
  (browser
     (Api.run [ResponseError (expired_401 "/auth/me");
               RefreshSettled 0 (Normal renewed_tokens)]
        {| browser := fst (onRequest AuthContext.me_request b);
           refreshCalls := []; waiting := []; settled := [] |}),
   AuthService.getCurrentUser (Normal {| status := 200; body := profile |})).

(** The same call when the refresh call is refused: the response
    interceptor removes the token entry and sets the location, and
    [getCurrentUser] throws the wrapped refresh error. *)
Definition me_refresh_refused (b : Browser) : Browser * Completion JsVal :=
  (browser
     (Api.run [ResponseError (expired_401 "/auth/me");
               RefreshSettled 0 (Throw refresh_refused)]
        {| browser := fst (onRequest AuthContext.me_request b);
           refreshCalls := []; waiting := []; settled := [] |}),
   AuthService.getCurrentUser (Throw refresh_refused)).

End Scenario.

(** * Properties *)

Import Types Config Api ChatProvider Spec.

(** ** Small runs of the definitions *)

Example isAuthEndpoint_login : isAuthEndpoint (Some "/auth/login") = true.
Proof. reflexivity. Qed.

Example isAuthEndpoint_me : isAuthEndpoint (Some "/auth/me") = false.
Proof. reflexivity. Qed.

Example isAuthEndpoint_no_url : isAuthEndpoint None = false.
Proof. reflexivity. Qed.

Example blank_white_space : blank (String "009" (String " " EmptyString)) = true.
Proof. reflexivity. Qed.

Example blank_word : blank " hi " = false.
Proof. reflexivity. Qed.

Example transformError_401 :
  transformError (axios_error_val (Scenario.expired_401 "/chat"))
  = Normal (VObj PlainObject
              [("detail", VStr "Token expired"); ("status_code", VNum 401);
               ("type", VUndefined)]).
Proof. reflexivity. Qed.

Example transformError_unreachable :
  transformError (axios_error_val Scenario.unreachable) = Normal NetworkError.
Proof. reflexivity. Qed.

Example handleChatError_wraps :
  ChatService.handleChatError NetworkError
  = new_Error (VStr "Network error - please check your connection").
Proof. reflexivity. Qed.

Example refresh_succeeds :
  settled (Api.run [ResponseError (Scenario.expired_401 "/chat");
                    RefreshSettled 0 (Normal Scenario.tokens)] Scenario.idle)
  = [Reissue (set_header "Authorization" "Bearer access-1"
                (set_retry (config (Scenario.expired_401 "/chat"))))].
Proof. vm_compute. reflexivity. Qed.

Example welcome_id :
  Message.id (getWelcomeMessage Scenario.t0) = "welcome-1700000000000".
Proof. reflexivity. Qed.

(** ** ChatService.getChats *)
Section GetChats.

Lemma assoc_assoc_set {A} (k : string) (x : A) (props : list (string * A)) :
  assoc k (assoc_set k x props) = Some x.
Proof.
  induction props as [|[k' v'] props IH]; simpl.
  - now rewrite String.eqb_refl.
  - destruct (String.eqb k k') eqn:E; simpl.
    + now rewrite String.eqb_refl.
    + now rewrite E.
Qed.

Lemma object_guard (d : JsVal) :
  negb (truthy d) || negb (String.eqb (typeof d) "object") = negb (is_object d).
Proof.
  destruct d as [| |b|n|t|elems props|c props]; simpl; try reflexivity.
  - now destruct b.
  - now rewrite orb_true_r.
  - now rewrite orb_true_r.
Qed.

Lemma chats_coerced (d page : JsVal) :
  is_object d = true ->
  set_prop "chats" (VArr [] []) d = Normal page ->
  get_opt "chats" page = VArr [] [].
Proof.
  destruct d as [| |b|n|t|elems props|c props]; simpl; try discriminate;
    intros _ [= <-]; unfold get_opt; simpl; now rewrite assoc_assoc_set.
Qed.

End GetChats.

(** C10.  A conversation-list response that arrived (any status, any
    body) whose body is not an object, or whose [chats] field is not an
    array, never makes [getChats] throw: it returns the empty page
    (no chats, total 0, page 1, page_size 10, has_next and has_previous
    false) when the body is not an object, and otherwise the body itself
    with [chats] set to the empty array. *)
Theorem getChats_malformed_body (st : Z) (d : JsVal) :
  is_object d = false \/ isArray (get_opt "chats" d) = false ->
  exists page : JsVal,
    ChatService.getChats (Normal {| status := st; body := d |}) = Normal page /\
    (if is_object d
     then set_prop "chats" (VArr [] []) d = Normal page /\
          get_opt "chats" page = VArr [] []
     else page = ChatService.empty_page /\
          page = VObj PlainObject
                   [("chats", VArr [] []); ("total", VNum 0); ("page", VNum 1);
                    ("page_size", VNum 10); ("has_next", VBool false);
                    ("has_previous", VBool false)]).
Proof.
  intros Hbad. unfold ChatService.getChats. simpl.
  rewrite object_guard.
  destruct (is_object d) eqn:Hobj; simpl.
  - destruct Hbad as [Hbad|Hbad]; [discriminate|].
    assert (Hget : get_prop "chats" d = Normal (get_opt "chats" d)).
    { unfold get_opt. destruct d; simpl in *; try discriminate; reflexivity. }
    rewrite Hget. simpl. rewrite Hbad. simpl.
    destruct (set_prop "chats" (VArr [] []) d) as [page|e] eqn:Hset.
    + exists page. split; [reflexivity|]. split; [reflexivity|].
      eapply chats_coerced; eassumption.
    + destruct d; simpl in *; discriminate.
  - exists ChatService.empty_page. repeat split.
Qed.

Lemma getChats_malformed_body_witness :
  exists page : JsVal,
    ChatService.getChats
      (Normal {| status := 200;
                 body := VObj PlainObject [("chats", VStr "none"); ("total", VNum 4)] |})
    = Normal page /\
    get_opt "chats" page = VArr [] [] /\
    get_opt "total" page = VNum 4.
Proof.
  destruct (getChats_malformed_body 200
              (VObj PlainObject [("chats", VStr "none"); ("total", VNum 4)]))
    as [page [Hrun Hpage]].
  - right. reflexivity.
  - exists page. split; [exact Hrun|].
    simpl in Hpage. destruct Hpage as [[= <-] Hchats].
    split; reflexivity.
Defined.

(** ** createNewChat *)

(** After two pages were loaded, [createNewChat] leaves [currentPage] at 2
    and [hasMoreMessages] true. *)
Lemma createNew_resets_fails :
  ~ createNew_resets Scenario.t0 Scenario.page2_loaded.
Proof.
  unfold createNew_resets. simpl. intros (_ & _ & _ & Hpage & _). discriminate.
Qed.

(** C9 (amended).  [createNewChat] starts no backend call, clears the
    current conversation and replaces the window by the welcome message
    alone; [currentPage] and [hasMoreMessages] keep the values they had. *)
Theorem createNewChat_local (c : Clock) (st : ChatState) :
  exists st',
    createNewChat c st = (st', []) /\
    currentChat st' = None /\
    messages st' = [getWelcomeMessage c] /\
    currentPage st' = currentPage st /\
    hasMoreMessages st' = hasMoreMessages st /\
    chats st' = chats st.
Proof.
  eexists. split; [reflexivity|]. repeat split.
Qed.

(** ** loadMessages and loadMoreMessages *)

(** Page 2 of [A] is in flight and the flag is set; a call of
    [loadMessages] for [B] (as [deleteChat] or the effect on a change of
    the current chat makes it) sends its request all the same. *)
Lemma loadMessages_not_dropped :
  Loads.inFlight Scenario.loading_more = [("A", 2)] /\
  isChatLoading (Loads.state Scenario.loading_more) = true /\
  ~ load_is_dropped Scenario.getErrorMessage Scenario.loading_more "B" 1.
Proof.
  split; [reflexivity|]. split; [reflexivity|].
  unfold load_is_dropped. intros H.
  destruct H as [Hsame _]; [discriminate|reflexivity|].
  vm_compute in Hsame. discriminate.
Qed.

Lemma loadMoreMessages_guard (st : ChatState) :
  isChatLoading st = true ->
  loadMoreMessages st = (st, []).
Proof.
  intros Hbusy. unfold loadMoreMessages.
  destruct (currentChat st); [|reflexivity].
  rewrite Hbusy, orb_true_r. reflexivity.
Qed.

Section LoadFlag.
Variable getErrorMessage : JsVal -> string.

(** C4 (amended).  The guard is in [loadMoreMessages] and it reads the
    flag [isChatLoading]: in every state in which the flag is set, a call
    of [loadMoreMessages] is a no-op, it sends no request and leaves the
    state as it is.  [loadMessages] itself has no guard: in every state,
    with message loads in flight or not, it sends its request and sets
    the flag.  The flag is cleared whenever a message load settles, also
    while other loads are still in flight, so the flag does not say
    whether a load is in flight. *)
Theorem loadMore_is_dropped_while_flag_is_set (sys : Loads.Sys) :
  (isChatLoading (Loads.state sys) = true ->
   Loads.step getErrorMessage sys Loads.LoadMore = sys) /\
  (forall chatId page,
     let sys' := Loads.step getErrorMessage sys (Loads.LoadMessages chatId page) in
     Loads.inFlight sys' = Loads.inFlight sys ++ [(chatId, page)] /\
     isChatLoading (Loads.state sys') = true /\
     messages (Loads.state sys') = messages (Loads.state sys)) /\
  (forall i r load,
     Loads.inFlight sys !! i = Some load ->
     let sys' := Loads.step getErrorMessage sys (Loads.Settled i r) in
     Loads.inFlight sys' = delete i (Loads.inFlight sys) /\
     isChatLoading (Loads.state sys') = false).
Proof.
  split; [|split].
  - intros Hbusy. unfold Loads.step.
    rewrite (loadMoreMessages_guard _ Hbusy). cbn. rewrite app_nil_r. now destruct sys.
  - intros chatId page. cbn. repeat split.
  - intros i r [chatId page] Hload. cbn. rewrite Hload. cbn.
    split; [reflexivity|].
    destruct r as [response|err]; cbn; [|reflexivity].
    unfold loadMessages_fulfilled. now destruct (page =? 1).
Qed.

End LoadFlag.

Lemma loadMore_is_dropped_while_flag_is_set_witness :
  Loads.step Scenario.getErrorMessage Scenario.loading_more Loads.LoadMore
  = Scenario.loading_more /\
  Loads.inFlight
    (Loads.run Scenario.getErrorMessage
       [Loads.LoadMessages "B" 1;
        Loads.Settled 0 (Normal (Scenario.page_of [Scenario.a1; Scenario.a2; Scenario.a3]
                                   2 true));
        Loads.LoadMore]
       Scenario.loading_more)
  = [("B", 1); ("A", 3)].
Proof.
  split; [|vm_compute; reflexivity].
  destruct (loadMore_is_dropped_while_flag_is_set Scenario.getErrorMessage
              Scenario.loading_more) as (Hdrop & _ & _).
  apply Hdrop. reflexivity.
Defined.

(** The user opened a new chat while page 2 of [A] was in flight; when
    the page arrives it is put into the window of the new chat. *)
Lemma stale_response_applied :
  ~ stale_discarded "A" 2 (Scenario.page_of [Scenario.a1; Scenario.a2; Scenario.a3] 2 true)
      Scenario.navigated_away.
Proof.
  unfold stale_discarded. simpl. intros H.
  destruct H as (_ & _ & Hpage); [discriminate|discriminate].
Qed.

(** C5 (amended).  When the response of a [loadMessages] request arrives
    it is applied whatever the current conversation is by then, no id is
    compared: page 1 replaces the window, a later page is put in front of
    it, [hasMoreMessages] becomes the response's [has_next], [currentPage]
    the requested page, and the load flag is cleared. *)
Theorem loadMessages_response_applied (page : Z) (response : PaginatedMessages.t)
    (st : ChatState) :
  exists st',
    loadMessages_fulfilled page response st = (st', []) /\
    messages st' =
      (if page =? 1 then PaginatedMessages.messages response
       else PaginatedMessages.messages response ++ messages st) /\
    hasMoreMessages st' = PaginatedMessages.has_next response /\
    currentPage st' = page /\
    isChatLoading st' = false /\
    currentChat st' = currentChat st.
Proof.
  unfold loadMessages_fulfilled.
  destruct (page =? 1); eexists; (split; [reflexivity|]); repeat split.
Qed.

(** ** deleteChat *)
Section DeleteChat.
Variable getErrorMessage : JsVal -> string.

(** C7.  A successful [deleteChat] of the current conversation removes it
    from the list.  When conversations remain, the first of them in list
    order becomes current, [currentPage] is 1 and the first message page
    of that conversation is requested, so [currentChat] is not null; and
    when that page arrives it replaces the window, with the chat still
    current.  When none remains, the state is that of [createNewChat]: no
    current conversation and the welcome message alone in the window. *)
Theorem deleteChat_of_current (c : Clock) (isAuthenticated : bool)
    (st : ChatState) (cur : Chat.t) :
  currentChat st = Some cur ->
  let chatId := Chat.id cur in
  let remaining :=
    List.filter (fun chat => negb (String.eqb (Chat.id chat) chatId)) (chats st) in
  exists st' effs,
    deleteChat_run getErrorMessage c isAuthenticated chatId (Normal tt) st = (st', effs) /\
    chats st' = remaining /\
    match remaining with
    | nextChat :: _ =>
        currentChat st' = Some nextChat /\
        currentPage st' = 1 /\
        effs = [DeleteChat chatId;
                GetMessages (Chat.id nextChat) 1 CONSTANTS.DEFAULT_PAGE_SIZE] /\
        isChatLoading st' = true /\
        forall response : PaginatedMessages.t,
          let st'' :=
            fst (loadMessages_settled getErrorMessage 1 (Normal response) st') in
          messages st'' = PaginatedMessages.messages response /\
          hasMoreMessages st'' = PaginatedMessages.has_next response /\
          currentPage st'' = 1 /\
          currentChat st'' = Some nextChat /\
          chats st'' = remaining /\
          isChatLoading st'' = false
    | [] =>
        currentChat st' = None /\
        messages st' = [getWelcomeMessage c] /\
        messages st' = messages (fst (createNewChat c st)) /\
        effs = [DeleteChat chatId]
    end.
Proof.
  intros Hcur chatId remaining.
  unfold deleteChat_run, deleteChat_fulfilled, deleteChat.
  rewrite Hcur. cbn [fmap option_fmap option_map].
  fold chatId. unfold seq at 1. unfold seq at 1. cbn -[List.filter bool_decide].
  rewrite bool_decide_eq_true_2 by reflexivity.
  fold remaining.
  destruct remaining as [|nextChat rest] eqn:Hrem.
  - destruct isAuthenticated; do 2 eexists; (split; [reflexivity|]); repeat split.
  - do 2 eexists. split; [reflexivity|].
    cbn [chats currentChat currentPage isChatLoading fst snd].
    repeat split.
Qed.

End DeleteChat.

Lemma deleteChat_of_current_witness :
  exists st' effs,
    deleteChat_run Scenario.getErrorMessage Scenario.t0 true "A" (Normal tt)
      Scenario.page1_loaded = (st', effs) /\
    currentChat st' = Some (Scenario.chat "B") /\
    effs = [DeleteChat "A"; GetMessages "B" 1 3] /\
    messages
      (fst (loadMessages_settled Scenario.getErrorMessage 1
              (Normal (Scenario.page_of [Scenario.a1] 1 false)) st'))
    = [Scenario.a1].
Proof.
  destruct (deleteChat_of_current Scenario.getErrorMessage Scenario.t0 true
              Scenario.page1_loaded (Scenario.chat "A") eq_refl)
    as (st' & effs & Hrun & _ & Hcur & _ & Heffs & _ & Hreload).
  exists st', effs. split; [exact Hrun|]. split; [exact Hcur|].
  split; [exact Heffs|].
  apply (Hreload (Scenario.page_of [Scenario.a1] 1 false)).
Defined.

(** ** sendMessage *)
Section SendMessage.
Variable getErrorMessage : JsVal -> string.

Implicit Types (attempt : nat -> Completion (option ChatMessageResponse.t)).

(** The loop ends: with as much fuel as attempts are left it yields a result. *)
Lemma retry_loop_total (fuel : nat) md attempt (calls : nat) (retryCount : Z) :
  maxRetries + 1 - retryCount <= Z.of_nat fuel ->
  exists r effs, retry_loop fuel md attempt calls retryCount = Some (r, effs).
Proof.
  revert calls retryCount.
  induction fuel as [|fuel IH]; intros calls retryCount Hfuel; simpl.
  - destruct (Z.leb_spec retryCount maxRetries); [lia|eauto].
  - destruct (Z.leb_spec retryCount maxRetries); [|eauto].
    destruct (attempt calls) as [response|error]; [eauto|].
    destruct (is_api_error error); [|eauto].
    destruct (is_network_error error); [|eauto].
    destruct (Z.leb_spec (retryCount + 1) maxRetries); [|eauto].
    destruct (IH (S calls) (retryCount + 1)) as (r & effs & ->); [lia|eauto].
Qed.

Lemma send_with_retry_total md attempt :
  exists r effs, send_with_retry md attempt = Some (r, effs).
Proof. apply retry_loop_total. unfold maxRetries. simpl. lia. Qed.

(** [sendMessage] always returns. *)
Lemma sendMessage_total (t0 t1 : Clock) (text : string) attempt (st : ChatState) :
  exists st' effs, sendMessage getErrorMessage t0 t1 text attempt st = Some (st', effs).
Proof.
  unfold sendMessage.
  destruct (blank text || isLoading st); [unfold skip; eauto|].
  destruct (send_with_retry_total (messageData (Chat.id <$> currentChat st) text) attempt)
    as (r & effs & ->).
  match goal with |- exists _ _, Some ?x = _ => destruct x as [st' effs'] end.
  eauto.
Qed.

(** What the loop would do on an error that still carries [status_code]
    and [type]: three calls, with timers of 1000 and 2000 ms between them. *)
Lemma retry_loop_on_api_error md :
  send_with_retry md (fun _ => Throw NetworkError)
  = Some (Throw NetworkError,
          [PostMessage md; SetTimeout 1000; PostMessage md; SetTimeout 2000;
           PostMessage md]).
Proof. reflexivity. Qed.

(** An error without [status_code] or [type] ends the loop at once. *)
Lemma retry_loop_other_error md attempt (error : JsVal) :
  attempt 0%nat = Throw error ->
  is_api_error error && is_network_error error = false ->
  send_with_retry md attempt = Some (Throw error, [PostMessage md]).
Proof.
  intros Hatt Hcls. unfold send_with_retry. simpl. rewrite Hatt.
  destruct (is_api_error error); [|reflexivity].
  simpl in Hcls. rewrite Hcls. reflexivity.
Qed.

(** The [catch] only adds to the window it finds, whatever that window is. *)
Lemma sendMessage_rejected_appends (c : Clock) (currentChat_id : option string)
    (err : JsVal) (st : ChatState) :
  messages (fst (sendMessage_rejected getErrorMessage c currentChat_id err st))
  = messages st ++ [errorMsg c currentChat_id].
Proof. reflexivity. Qed.

(** C3.  When a [sendMessage] call fails (the text is not blank and no
    send is under way), the final window is the former window followed by
    the optimistic user message and then one assistant message with the
    fixed apology text; the user message stays, the error text is in
    [error], and [isLoading] is false again. *)
Theorem failed_send_appends_apology (t0 t1 : Clock) (text : string) attempt
    (st : ChatState) (err : JsVal) :
  blank text = false ->
  isLoading st = false ->
  send_fails (Chat.id <$> currentChat st) text attempt err ->
  let currentChat_id := Chat.id <$> currentChat st in
  exists st' effs,
    sendMessage getErrorMessage t0 t1 text attempt st = Some (st', effs) /\
    messages st' =
      messages st ++ [userMessage t0 currentChat_id text; errorMsg t1 currentChat_id] /\
    Message.role (userMessage t0 currentChat_id text) = user /\
    Message.content (userMessage t0 currentChat_id text) = text /\
    Message.role (errorMsg t1 currentChat_id) = assistant /\
    Message.content (errorMsg t1 currentChat_id) = APOLOGY /\
    error st' = Some (getErrorMessage err) /\
    isLoading st' = false /\
    currentChat st' = currentChat st /\
    chats st' = chats st.
Proof.
  intros Hblank Hidle (r & effs & Hloop & Hres) cid.
  unfold sendMessage. rewrite Hblank, Hidle. cbn [orb].
  fold cid. fold cid in Hloop, Hres. rewrite Hloop, Hres.
  do 2 eexists. split; [reflexivity|].
  simpl. rewrite <- app_assoc. simpl. repeat split.
Qed.

(** C2.  When the server cannot be reached, the response interceptor
    rejects with the normalized NetworkError (status_code 0, type
    network_error), [ChatService.sendMessage] rethrows it as a plain
    [Error] that has neither [status_code] nor [type], and the retry loop
    of [sendMessage] gives up after this first attempt: one POST, no
    timer, no retry. *)
Theorem network_error_is_not_retried (t0 t1 : Clock) (text : string)
    (st : ChatState) (e : AxiosError) (b : Browser) :
  blank text = false ->
  isLoading st = false ->
  response e = None ->
  request e = true ->
  let md := messageData (Chat.id <$> currentChat st) text in
  let wrapped := new_Error (VStr "Network error - please check your connection") in
  onResponseError e b = (b, Reject NetworkError) /\
  ChatService.sendMessage (Throw NetworkError) = Throw wrapped /\
  is_api_error NetworkError && is_network_error NetworkError = true /\
  is_api_error wrapped = false /\
  exists st' effs,
    sendMessage getErrorMessage t0 t1 text
      (fun _ => ChatService.sendMessage (Throw NetworkError)) st = Some (st', effs) /\
    effs = [PostMessage md] /\
    posts effs = 1%nat /\
    delays effs = [] /\
    error st' = Some (getErrorMessage wrapped).
Proof.
  intros Hblank Hidle Hresp Hreq md wrapped.
  split.
  { unfold onResponseError, status_is_401. rewrite Hresp. simpl.
    unfold reject_transformed, axios_error_val. rewrite Hresp, Hreq. reflexivity. }
  split; [reflexivity|]. split; [reflexivity|]. split; [reflexivity|].
  unfold sendMessage. rewrite Hblank, Hidle. cbn [orb].
  fold md.
  rewrite (retry_loop_other_error md _ wrapped) by reflexivity.
  do 2 eexists. split; [reflexivity|]. repeat split.
Qed.

End SendMessage.

Lemma failed_send_appends_apology_witness :
  exists st' effs,
    sendMessage Scenario.getErrorMessage Scenario.t0 Scenario.t1 "What is KYC?"
      (fun _ => Throw NetworkError) Scenario.page1_loaded = Some (st', effs) /\
    Message.id <$> messages st' =
      ["a4"; "a5"; "a6"; "user-1700000000000"; "error-1700000003000"] /\
    posts effs = 3%nat /\
    delays effs = [1000; 2000].
Proof.
  destruct (failed_send_appends_apology Scenario.getErrorMessage Scenario.t0 Scenario.t1
              "What is KYC?" (fun _ => Throw NetworkError) Scenario.page1_loaded
              NetworkError eq_refl eq_refl)
    as (st' & effs & Hrun & Hwin & _).
  - do 2 eexists. split; reflexivity.
  - exists st', effs. split; [exact Hrun|].
    split; [rewrite Hwin; reflexivity|].
    vm_compute in Hrun. injection Hrun as _ <-. split; reflexivity.
Defined.

Lemma network_error_is_not_retried_witness :
  exists st' effs,
    sendMessage Scenario.getErrorMessage Scenario.t0 Scenario.t1 "What is KYC?"
      (fun _ => ChatService.sendMessage (Throw NetworkError))
      Scenario.page1_loaded = Some (st', effs) /\
    posts effs = 1%nat /\
    delays effs = [].
Proof.
  destruct (network_error_is_not_retried Scenario.getErrorMessage Scenario.t0 Scenario.t1
              "What is KYC?" Scenario.page1_loaded Scenario.unreachable
              Scenario.signed_out eq_refl eq_refl eq_refl eq_refl)
    as (_ & _ & _ & _ & st' & effs & Hrun & _ & Hposts & Hdelays & _).
  exists st', effs. split; [exact Hrun|]. split; [exact Hposts|exact Hdelays].
Defined.

(** ** The token guard *)

Lemma onResponseError_expired (e : AxiosError) (b : Browser) :
  expired e ->
  truthy (get_opt "refresh_token" (getStoredTokens b)) = true ->
  onResponseError e b
  = (b, Refreshing (get_opt "refresh_token" (getStoredTokens b)) (set_retry (config e))).
Proof.
  intros (H401 & Hretry & Hauth) Htok.
  unfold onResponseError. rewrite H401, Hretry, Hauth. simpl. now rewrite Htok.
Qed.

(** A request that was retried once is not refreshed for again. *)
Lemma onResponseError_retried (e : AxiosError) (b : Browser) :
  _retry (config e) = true ->
  onResponseError e b = (b, reject_transformed e).
Proof.
  intros Hretry. unfold onResponseError. rewrite Hretry.
  now rewrite andb_false_r.
Qed.

Lemma run_app (evs1 evs2 : list Event) (w : World) :
  Api.run (evs1 ++ evs2) w = Api.run evs2 (Api.run evs1 w).
Proof. unfold Api.run. apply fold_left_app. Qed.

(** Two requests get a 401 one after the other, the second while the
    refresh of the first is in flight: two refresh calls are sent. *)
Lemma single_flight_fails :
  ~ single_flight Scenario.idle
      [Scenario.expired_401 "/chat"; Scenario.expired_401 "/chat/A/messages"].
Proof.
  unfold single_flight. intros H.
  assert (Hlen : (length (refreshCalls
                    (Api.run (ResponseError <$> [Scenario.expired_401 "/chat";
                                                 Scenario.expired_401 "/chat/A/messages"])
                       Scenario.idle)) = 2)%nat) by (vm_compute; reflexivity).
  rewrite Hlen in H.
  assert (Hexp : Forall expired [Scenario.expired_401 "/chat";
                                 Scenario.expired_401 "/chat/A/messages"]).
  { repeat constructor. }
  specialize (H eq_refl Hexp). lia.
Qed.

Lemma run_of_expired (w : World) (errors : list AxiosError) :
  truthy (get_opt "refresh_token" (getStoredTokens (browser w))) = true ->
  Forall expired errors ->
  Api.run (ResponseError <$> errors) w =
    {| browser := browser w;
       refreshCalls :=
         refreshCalls w ++
         replicate (length errors) (get_opt "refresh_token" (getStoredTokens (browser w)));
       waiting := waiting w ++ ((fun e => set_retry (config e)) <$> errors);
       settled := settled w |}.
Proof.
  intros Htok Hall. unfold Api.run. revert w Htok.
  induction Hall as [|e errors He Hall IH]; intros w Htok.
  - simpl. rewrite !app_nil_r. now destruct w.
  - rewrite !fmap_cons. cbn [fold_left length replicate].
    set (w1 := step w (ResponseError e)).
    assert (Hw1 : w1 = {| browser := browser w;
                          refreshCalls := refreshCalls w ++
                            [get_opt "refresh_token" (getStoredTokens (browser w))];
                          waiting := waiting w ++ [set_retry (config e)];
                          settled := settled w |}).
    { unfold w1, step. now rewrite (onResponseError_expired e (browser w) He Htok). }
    rewrite (IH w1) by (rewrite Hw1; exact Htok).
    rewrite Hw1. cbn [browser refreshCalls waiting settled].
    now rewrite <- !app_assoc.
Qed.

(** C1 (amended).  The handler has no shared pending refresh: with a
    refresh token in storage, every request that gets a 401 (not retried
    before, not an auth endpoint) sends its own refresh call with the
    stored refresh token and waits for it, also while other refresh calls
    are in flight.  So [n] such responses make [n] refresh calls.  Each of
    them marks its request as retried, and a response error for a request
    marked as retried, a 401 too, sends no refresh call: it is rejected
    at once. *)
Theorem every_401_sends_a_refresh (w : World) (errors : list AxiosError) :
  truthy (get_opt "refresh_token" (getStoredTokens (browser w))) = true ->
  Forall expired errors ->
  let w' := Api.run (ResponseError <$> errors) w in
  refreshCalls w' =
    refreshCalls w ++
    replicate (length errors) (get_opt "refresh_token" (getStoredTokens (browser w))) /\
  waiting w' = waiting w ++ ((fun e => set_retry (config e)) <$> errors) /\
  browser w' = browser w /\
  settled w' = settled w /\
  Forall (fun req => _retry req = true) ((fun e => set_retry (config e)) <$> errors) /\
  (forall e : AxiosError,
     _retry (config e) = true ->
     exists rejection,
       step w' (ResponseError e) =
         {| browser := browser w';
            refreshCalls := refreshCalls w';
            waiting := waiting w';
            settled := settled w' ++ [Reject rejection] |}).
Proof.
  intros Htok Hall w'. subst w'. rewrite (run_of_expired w errors Htok Hall).
  cbn [browser refreshCalls waiting settled].
  repeat split.
  - apply Forall_forall. intros req Hreq.
    apply list_elem_of_fmap in Hreq as (e & -> & _). reflexivity.
  - intros e Hretry. unfold step. cbn [browser].
    rewrite (onResponseError_retried e (browser w) Hretry).
    unfold reject_transformed.
    destruct (transformError (axios_error_val e)); eexists; reflexivity.
Qed.

Lemma every_401_sends_a_refresh_witness :
  (length (refreshCalls
     (Api.run (ResponseError <$> [Scenario.expired_401 "/chat";
                                  Scenario.expired_401 "/chat/A/messages";
                                  Scenario.expired_401 "/auth/me"])
        Scenario.idle)) = 3)%nat /\
  refreshCalls
    (step
       (Api.run (ResponseError <$> [Scenario.expired_401 "/chat";
                                    Scenario.expired_401 "/chat/A/messages";
                                    Scenario.expired_401 "/auth/me"])
          Scenario.idle)
       (ResponseError
          (with_config (set_retry (config (Scenario.expired_401 "/chat")))
             (Scenario.expired_401 "/chat"))))
  = refreshCalls
      (Api.run (ResponseError <$> [Scenario.expired_401 "/chat";
                                   Scenario.expired_401 "/chat/A/messages";
                                   Scenario.expired_401 "/auth/me"])
         Scenario.idle).
Proof.
  destruct (every_401_sends_a_refresh Scenario.idle
              [Scenario.expired_401 "/chat"; Scenario.expired_401 "/chat/A/messages";
               Scenario.expired_401 "/auth/me"]) as (Hcalls & _ & _ & _ & _ & Hretried).
  - vm_compute. reflexivity.
  - repeat constructor.
  - split; [rewrite Hcalls; reflexivity|].
    destruct (Hretried
                (with_config (set_retry (config (Scenario.expired_401 "/chat")))
                   (Scenario.expired_401 "/chat")) eq_refl) as [rejection ->].
    reflexivity.
Defined.

(** However the refresh fails, the handler removes the token entry,
    redirects to the start page and rejects with the refresh error. *)
Lemma onRefreshFailed_clears_tokens (e : AxiosError) (b0 b0' b : Browser)
    (tok refreshError : JsVal) (req : RequestConfig) :
  onResponseError e b0 = (b0', Refreshing tok req) ->
  exists b',
    onRefreshFailed refreshError req b = (b', Reject refreshError) /\
    localStorage b' = delete STORAGE_KEYS.TOKENS (localStorage b) /\
    localStorage b' !! STORAGE_KEYS.TOKENS = None /\
    location_href b' = "/".
Proof.
  intros Hstart. unfold onResponseError in Hstart.
  destruct (status_is_401 e); [|unfold reject_transformed in Hstart;
    destruct transformError; discriminate].
  destruct (_retry (config e)); [unfold reject_transformed in Hstart;
    destruct transformError; discriminate|].
  destruct (isAuthEndpoint (url (config e))) eqn:Hauth;
    [unfold reject_transformed in Hstart; destruct transformError; discriminate|].
  simpl in Hstart.
  destruct (truthy (get_opt "refresh_token" (getStoredTokens b0)));
    [|unfold reject_transformed in Hstart; destruct transformError; discriminate].
  injection Hstart as _ _ <-.
  unfold onRefreshFailed. simpl. rewrite Hauth. simpl.
  eexists. split; [reflexivity|]. simpl. repeat split.
  apply lookup_delete_eq.
Qed.

(** C8.  A signed-in browser holds the user entry and the token entry.
    A request gets a 401, the handler sends the refresh call, and the
    refresh is refused.  The token entry is removed, the page is
    redirected and the refresh error is passed on, but the user entry is
    still in storage. *)
Theorem refresh_failure_keeps_user_entry :
  let w1 := step Scenario.idle (ResponseError (Scenario.expired_401 "/chat")) in
  let w2 := step w1 (RefreshSettled 0 (Throw Scenario.refresh_refused)) in
  refreshCalls w1 = [VStr "refresh-1"] /\
  localStorage (browser w2) !! STORAGE_KEYS.TOKENS = None /\
  localStorage (browser w2) !! STORAGE_KEYS.USER = Some (Ser Scenario.profile) /\
  location_href (browser w2) = "/" /\
  settled w2 = [Reject Scenario.refresh_refused] /\
  ~ auth_state_cleared (browser w2).
Proof.
  repeat split; try (vm_compute; reflexivity).
  unfold auth_state_cleared. intros [Huser _]. vm_compute in Huser. discriminate.
Qed.

(** ** The message window under paging *)

(** Closes the side conditions of a concrete window: the order of two
    [created_at] texts by evaluation, and that an id is not in a list. *)
Ltac window_facts :=
  repeat constructor;
  repeat (rewrite not_elem_of_cons; split; [discriminate|]);
  try apply not_elem_of_nil.

Lemma loadMessages_fulfilled_window (page : Z) (response : PaginatedMessages.t)
    (st : ChatState) :
  messages (fst (loadMessages_fulfilled page response st))
  = window_after page response (messages st).
Proof.
  unfold loadMessages_fulfilled, window_after. now destruct (page =? 1).
Qed.

Lemma window_after_ok (page : Z) (response : PaginatedMessages.t) (w : list Message.t) :
  window_ok w -> fits page response w -> window_ok (window_after page response w).
Proof.
  intros [Hsorted Hids] [[Hrs Hri] Hcross]. unfold window_after.
  destruct (Z.eqb_spec page 1) as [->|Hpage]; [now split|].
  specialize (Hcross Hpage). rewrite Forall_forall in Hcross.
  split.
  - apply StronglySorted_app_2; [|assumption|assumption].
    intros m m' Hm Hm'. specialize (Hcross m Hm). rewrite Forall_forall in Hcross.
    now apply Hcross.
  - unfold distinct_ids. rewrite fmap_app. apply NoDup_app.
    split; [assumption|]. split; [|assumption].
    intros i Hi Hi'.
    apply list_elem_of_fmap in Hi as (m & -> & Hm).
    apply list_elem_of_fmap in Hi' as (m' & Heq & Hm').
    specialize (Hcross m Hm). rewrite Forall_forall in Hcross.
    now destruct (Hcross m' Hm').
Qed.

(** Page 1 is loaded, two more messages are exchanged, and then page 2 is
    asked for: the pages have shifted and the response repeats [a4] and
    [a5], which the window gets twice. *)
Lemma paging_keeps_window_ok_fails :
  ~ paging_keeps_window_ok
      [(1, Scenario.page_of [Scenario.a4; Scenario.a5; Scenario.a6] 1 true);
       (2, Scenario.page_of [Scenario.a3; Scenario.a4; Scenario.a5] 2 true)]
      initial.
Proof.
  unfold paging_keeps_window_ok. intros H.
  destruct H as [_ Hids].
  - split; constructor.
  - repeat constructor.
  - unfold window_ok, chronological, distinct_ids, before.
    simpl. window_facts.
  - change (NoDup ["a3"; "a4"; "a5"; "a4"; "a5"; "a6"]) in Hids.
    apply NoDup_cons_1_2, NoDup_cons_1_1 in Hids. apply Hids.
    right. left.
Qed.

(** C6 (amended).  A response for a page after the first is put in front
    of the window as it is, in its own order; ids are not compared and
    nothing is sorted.  When every response of a run of successful loads
    fits the window it meets (its messages strictly chronological with
    distinct ids and, after page 1, older than the window's and with
    other ids), the resulting window is strictly chronological and has no
    id twice. *)
Theorem paged_window_ordered (loads : list (Z * PaginatedMessages.t)) (st : ChatState) :
  window_ok (messages st) ->
  loads_fit (messages st) loads ->
  window_ok (messages (load_all loads st)) /\
  (forall page response st0,
     page <> 1 ->
     messages (fst (loadMessages_fulfilled page response st0))
     = PaginatedMessages.messages response ++ messages st0).
Proof.
  intros Hok Hfit. split.
  - revert st Hok Hfit. unfold load_all.
    induction loads as [|[page response] loads IH]; intros st Hok Hfit; [exact Hok|].
    destruct Hfit as [Hfits Hrest]. cbn [fold_left fst snd].
    apply IH; rewrite loadMessages_fulfilled_window.
    + now apply window_after_ok.
    + exact Hrest.
  - intros page response st0 Hpage.
    rewrite loadMessages_fulfilled_window. unfold window_after.
    now destruct (Z.eqb_spec page 1).
Qed.

Lemma paged_window_ordered_witness :
  window_ok
    (messages
       (load_all
          [(1, Scenario.page_of [Scenario.a4; Scenario.a5; Scenario.a6] 1 true);
           (2, Scenario.page_of [Scenario.a1; Scenario.a2; Scenario.a3] 2 false)]
          initial)).
Proof.
  apply paged_window_ordered.
  - split; constructor.
  - simpl. unfold fits, window_ok, chronological, distinct_ids, before.
    simpl. repeat split; try (intros _); window_facts; discriminate.
Defined.

(** * Further properties *)

Import Terms.

(** Runs the state updates of an action on the state it is applied to,
    leaving the messages and requests it builds folded. *)
Ltac run_actions :=
  cbv [seq call skip setChats setCurrentChat setMessages setIsLoading
       setIsChatLoading setError setHasMoreMessages setCurrentPage
       chats currentChat messages isLoading isChatLoading error
       hasMoreMessages currentPage fst snd].

(** ** lib/api.ts: the request interceptor *)

(** X1.  With an access token in storage the request interceptor puts
    [Authorization: Bearer <token>] and the ngrok header on the request,
    whatever the endpoint, keeps the other headers, and leaves storage and
    location alone. *)
Theorem onRequest_attaches_token (cfg : RequestConfig) (b : Browser) (tok : JsVal) :
  get_opt "access_token" (getStoredTokens b) = tok ->
  truthy tok = true ->
  exists cfg',
    onRequest cfg b = (b, cfg') /\
    headers cfg' !! "Authorization" = Some ("Bearer " +:+ to_string tok) /\
    headers cfg' !! "ngrok-skip-browser-warning" = Some "true" /\
    (forall k, k <> "Authorization" -> k <> "ngrok-skip-browser-warning" ->
               headers cfg' !! k = headers cfg !! k) /\
    url cfg' = url cfg /\
    _retry cfg' = _retry cfg.
Proof.
  intros Htok Htruthy. unfold onRequest. rewrite Htok, Htruthy.
  eexists. split; [reflexivity|]. simpl. repeat split.
  - rewrite lookup_insert_ne by discriminate. apply lookup_insert_eq.
  - apply lookup_insert_eq.
  - intros k H1 H2. now rewrite !lookup_insert_ne by congruence.
Qed.

Lemma onRequest_attaches_token_witness :
  exists cfg',
    onRequest AuthContext.me_request Scenario.signed_in = (Scenario.signed_in, cfg') /\
    headers cfg' !! "Authorization" = Some "Bearer access-1".
Proof.
  destruct (onRequest_attaches_token AuthContext.me_request Scenario.signed_in
              (VStr "access-1")) as (cfg' & Hrun & Hauth & _).
  - vm_compute. reflexivity.
  - reflexivity.
  - exists cfg'. split; [exact Hrun|exact Hauth].
Defined.

(** X2.  Without an access token in storage the request still goes out,
    with the ngrok header as the only change to it.  For an endpoint that
    is not auth-exempt the interceptor also removes the token entry and
    sets the location to the start page; for an exempt one the browser is
    left as it is. *)
Theorem onRequest_without_token (cfg : RequestConfig) (b : Browser) :
  truthy (get_opt "access_token" (getStoredTokens b)) = false ->
  exists b' cfg',
    onRequest cfg b = (b', cfg') /\
    headers cfg' = <["ngrok-skip-browser-warning" := "true"]> (headers cfg) /\
    url cfg' = url cfg /\
    (if isAuthEndpoint (url cfg) then b' = b
     else localStorage b' = delete STORAGE_KEYS.TOKENS (localStorage b) /\
          location_href b' = "/").
Proof.
  intros Hno. unfold onRequest. rewrite Hno.
  destruct (isAuthEndpoint (url cfg)); simpl;
    do 2 eexists; (split; [reflexivity|]); repeat split.
Qed.

Lemma onRequest_without_token_witness :
  exists b' cfg',
    onRequest AuthContext.me_request Scenario.signed_out = (b', cfg') /\
    headers cfg' !! "Authorization" = None /\
    location_href b' = "/".
Proof.
  destruct (onRequest_without_token AuthContext.me_request Scenario.signed_out eq_refl)
    as (b' & cfg' & Hrun & Hhdr & _ & Hb).
  exists b', cfg'. split; [exact Hrun|]. split.
  - rewrite Hhdr. reflexivity.
  - simpl in Hb. apply Hb.
Defined.

(** ** lib/api.ts: error normalization and the response interceptor *)

Lemma transformError_axios (e : AxiosError) :
  transformError (axios_error_val e) = Normal (normalized e).
Proof.
  unfold normalized, transformError, axios_error_val.
  destruct (response e) as [r|]; [|now destruct (request e)].
  destruct (request e); simpl; unfold get_opt; destruct (body r); reflexivity.
Qed.

Lemma normalized_has_detail (e : AxiosError) :
  truthy (normalized e) && String.eqb (typeof (normalized e)) "object" &&
  has_prop "detail" (normalized e) = true.
Proof.
  unfold normalized. destruct (response e); [reflexivity|]. now destruct (request e).
Qed.

(** X3.  [transformError] never throws on an axios error and sorts it into
    one of three shapes.  When the server answered, [status_code] is the
    HTTP status, [type] the body's [type], and [detail] the body's
    [detail] or, when that is missing or falsy, "An error occurred"; this
    holds also when the request is set.  With a request and no response it
    is the network error with [status_code] 0.  With neither, it is an
    unknown error with [status_code] 500 and the error's message. *)
Theorem transformError_normalizes (e : AxiosError) :
  transformError (axios_error_val e) = Normal (normalized e) /\
  has_prop "detail" (normalized e) = true /\
  has_prop "status_code" (normalized e) = true /\
  has_prop "type" (normalized e) = true /\
  instanceof_Error (normalized e) = false.
Proof.
  split; [apply transformError_axios|].
  unfold normalized.
  destruct (response e) as [r|]; [|destruct (request e)]; repeat split.
Qed.

Lemma reject_transformed_normalized (e : AxiosError) :
  reject_transformed e = Reject (normalized e).
Proof.
  unfold reject_transformed. now rewrite transformError_axios.
Qed.

(** X4.  The response error handler sends a refresh call exactly when the
    response is a 401, the request was not retried before, the endpoint is
    not auth-exempt and a refresh token is stored.  In every other case
    the caller gets the normalized error at once; and in no case does this
    step change storage or location, so a 401 without a stored refresh
    token is neither cleaned up nor redirected. *)
Theorem refresh_is_sent_exactly_when (e : AxiosError) (w : World) :
  step w (ResponseError e) =
    if sends_refresh e (browser w) then
      {| browser := browser w;
         refreshCalls :=
           refreshCalls w ++ [get_opt "refresh_token" (getStoredTokens (browser w))];
         waiting := waiting w ++ [set_retry (config e)];
         settled := settled w |}
    else
      {| browser := browser w;
         refreshCalls := refreshCalls w;
         waiting := waiting w;
         settled := settled w ++ [Reject (normalized e)] |}.
Proof.
  unfold step, onResponseError, sends_refresh.
  destruct (status_is_401 e); simpl;
    [|now rewrite reject_transformed_normalized].
  destruct (_retry (config e)); simpl;
    [now rewrite reject_transformed_normalized|].
  destruct (isAuthEndpoint (url (config e))); simpl;
    [now rewrite reject_transformed_normalized|].
  destruct (truthy (get_opt "refresh_token" (getStoredTokens (browser w)))); simpl;
    [reflexivity|].
  rewrite reject_transformed_normalized. reflexivity.
Qed.

(** X5.  A request is refreshed for at most once.  The request that a
    successful refresh reissues is marked as retried, so however it fails
    afterwards, with a 401 too, the handler rejects with the normalized
    error, sends no further refresh call and leaves the browser alone. *)
Theorem reissued_request_is_not_refreshed_again (e0 e : AxiosError) (b0 b0' b b' : Browser)
    (tok newTokens : JsVal) (req req' : RequestConfig) :
  onResponseError e0 b0 = (b0', Refreshing tok req) ->
  onRefreshed newTokens req b = (b', Reissue req') ->
  config e = req' ->
  _retry req' = true /\
  sends_refresh e b' = false /\
  onResponseError e b' = (b', Reject (normalized e)).
Proof.
  intros Hstart Hdone Hcfg.
  assert (Hreq : _retry req = true).
  { unfold onResponseError in Hstart.
    destruct (status_is_401 e0 && negb (_retry (config e0)) &&
              negb (isAuthEndpoint (url (config e0)))).
    - destruct (truthy (get_opt "refresh_token" (getStoredTokens b0))).
      + now injection Hstart as _ _ <-.
      + rewrite reject_transformed_normalized in Hstart. discriminate.
    - rewrite reject_transformed_normalized in Hstart. discriminate. }
  assert (Hreq' : _retry req' = true).
  { unfold onRefreshed in Hdone.
    destruct (get_prop "access_token" newTokens).
    - now injection Hdone as _ <-.
    - unfold onRefreshFailed in Hdone. discriminate. }
  split; [exact Hreq'|].
  split.
  - unfold sends_refresh. rewrite Hcfg, Hreq'. now rewrite andb_false_r.
  - rewrite onResponseError_retried by (now rewrite Hcfg).
    now rewrite reject_transformed_normalized.
Qed.

Lemma reissued_request_is_not_refreshed_again_witness :
  length (refreshCalls
    (Api.run [ResponseError (Scenario.expired_401 "/chat");
              RefreshSettled 0 (Normal Scenario.tokens);
              ResponseError
                (with_config
                   (set_header "Authorization" "Bearer access-1"
                      (set_retry (config (Scenario.expired_401 "/chat"))))
                   (Scenario.expired_401 "/chat"))]
       Scenario.idle)) = 1%nat /\
  onResponseError
    (with_config
       (set_header "Authorization" "Bearer access-1"
          (set_retry (config (Scenario.expired_401 "/chat"))))
       (Scenario.expired_401 "/chat"))
    (storeTokens Scenario.tokens Scenario.signed_in)
  = (storeTokens Scenario.tokens Scenario.signed_in,
     Reject (normalized (Scenario.expired_401 "/chat"))).
Proof.
  split; [vm_compute; reflexivity|].
  destruct (reissued_request_is_not_refreshed_again
              (Scenario.expired_401 "/chat")
              (with_config
                 (set_header "Authorization" "Bearer access-1"
                    (set_retry (config (Scenario.expired_401 "/chat"))))
                 (Scenario.expired_401 "/chat"))
              Scenario.signed_in Scenario.signed_in Scenario.signed_in
              (storeTokens Scenario.tokens Scenario.signed_in)
              (VStr "refresh-1") Scenario.tokens
              (set_retry (config (Scenario.expired_401 "/chat")))
              (set_header "Authorization" "Bearer access-1"
                 (set_retry (config (Scenario.expired_401 "/chat"))))
              eq_refl eq_refl eq_refl) as (_ & _ & Hrej).
  exact Hrej.
Defined.

(** X6.  When the refresh call resolves with an object, the handler
    stores it under the token key, so that [getStoredTokens] returns it
    from then on, leaves every other entry and the location alone, and
    reissues the request with [Authorization: Bearer] followed by the
    text of the object's [access_token]; an object without [access_token]
    is stored all the same and gives the header "Bearer undefined". *)
Theorem refresh_success_stores_and_reissues (props : list (string * JsVal)) (c : JsClass)
    (req : RequestConfig) (b : Browser) :
  let newTokens := VObj c props in
  let b' := storeTokens newTokens b in
  onRefreshed newTokens req b =
    (b', Reissue (set_header "Authorization"
                    ("Bearer " +:+ to_string (get_opt "access_token" newTokens)) req)) /\
  getStoredTokens b' = newTokens /\
  (forall k, k <> STORAGE_KEYS.TOKENS -> localStorage b' !! k = localStorage b !! k) /\
  location_href b' = location_href b.
Proof.
  intros newTokens b'. repeat split.
  - unfold b', getStoredTokens, storeTokens. simpl. now rewrite lookup_insert_eq.
  - intros k Hk. unfold b', storeTokens. simpl. now rewrite lookup_insert_ne.
Qed.

(** X7.  When the refresh call resolves with [null] or [undefined] (an
    empty body), reading [access_token] throws inside the [try], and the
    handler ends as for a failed refresh: the token entry it has just
    written is removed again, the location is set to the start page, the
    caller gets the TypeError, and the other entries stay. *)
Theorem refresh_with_empty_body_ends_session (e0 : AxiosError) (b0 b0' b : Browser)
    (tok newTokens : JsVal) (req : RequestConfig) :
  onResponseError e0 b0 = (b0', Refreshing tok req) ->
  newTokens = VNull \/ newTokens = VUndefined ->
  exists b',
    onRefreshed newTokens req b = (b', Reject TypeError) /\
    localStorage b' !! STORAGE_KEYS.TOKENS = None /\
    getStoredTokens b' = VNull /\
    location_href b' = "/" /\
    (forall k, k <> STORAGE_KEYS.TOKENS -> localStorage b' !! k = localStorage b !! k).
Proof.
  intros Hstart Hempty.
  destruct (onRefreshFailed_clears_tokens e0 b0 b0' (storeTokens newTokens b) tok
              TypeError req Hstart) as (b' & Hfail & Hstore & Hnone & Hloc).
  exists b'. split.
  { unfold onRefreshed. destruct Hempty as [-> | ->]; exact Hfail. }
  split; [exact Hnone|]. split.
  { unfold getStoredTokens. now rewrite Hnone. }
  split; [exact Hloc|].
  intros k Hk. rewrite Hstore. rewrite lookup_delete_ne by congruence.
  unfold storeTokens. simpl. now rewrite lookup_insert_ne by congruence.
Qed.

Lemma refresh_with_empty_body_ends_session_witness :
  exists b',
    onRefreshed VUndefined (set_retry (config (Scenario.expired_401 "/chat")))
      Scenario.signed_in = (b', Reject TypeError) /\
    getStoredTokens b' = VNull /\
    localStorage b' !! STORAGE_KEYS.USER = Some (Ser Scenario.profile).
Proof.
  destruct (refresh_with_empty_body_ends_session (Scenario.expired_401 "/chat")
              Scenario.signed_in Scenario.signed_in Scenario.signed_in
              (VStr "refresh-1") VUndefined
              (set_retry (config (Scenario.expired_401 "/chat"))))
    as (b' & Hrun & _ & Hget & _ & Hother).
  - reflexivity.
  - now right.
  - exists b'. split; [exact Hrun|]. split; [exact Hget|].
    rewrite Hother by discriminate. reflexivity.
Defined.

(** ** services/chatService.ts *)

Lemma new_Error_props (x : JsVal) :
  exists ps,
    new_Error x = VObj ErrorInstance ps /\
    (ps = [] \/ exists m, ps = [("message", m)]).
Proof. unfold new_Error. destruct x; eexists; split; eauto. Qed.

Lemma handleChatError_instance (error : JsVal) :
  instanceof_Error (ChatService.handleChatError error) = true.
Proof.
  unfold ChatService.handleChatError.
  destruct (truthy error && _ && has_prop "detail" error).
  - destruct (new_Error_props (get_opt "detail" error)) as (ps & -> & _). reflexivity.
  - now destruct (instanceof_Error error) eqn:Hinst.
Qed.

Lemma handleChatError_detail (error : JsVal) :
  truthy error && String.eqb (typeof error) "object" && has_prop "detail" error = true ->
  ChatService.handleChatError error = new_Error (get_opt "detail" error) /\
  has_prop "status_code" (ChatService.handleChatError error) = false /\
  has_prop "type" (ChatService.handleChatError error) = false /\
  is_api_error (ChatService.handleChatError error) = false.
Proof.
  intros Hdetail. unfold ChatService.handleChatError. rewrite Hdetail.
  destruct (new_Error_props (get_opt "detail" error)) as (ps & -> & Hps).
  destruct Hps as [-> | [m ->]]; repeat split.
Qed.

(** X8.  [handleChatError] always returns an [Error] object and is
    idempotent.  An error that carries a [detail], as every normalized
    error of the api layer does, comes out as a new [Error] whose only
    own property is the message: [status_code] and [type] are lost, and
    the shape test of the retry loop fails on the result. *)
Theorem handleChatError_gives_Error (error : JsVal) :
  instanceof_Error (ChatService.handleChatError error) = true /\
  ChatService.handleChatError (ChatService.handleChatError error)
  = ChatService.handleChatError error /\
  (truthy error && String.eqb (typeof error) "object" && has_prop "detail" error = true ->
   ChatService.handleChatError error = new_Error (get_opt "detail" error) /\
   has_prop "status_code" (ChatService.handleChatError error) = false /\
   has_prop "type" (ChatService.handleChatError error) = false /\
   is_api_error (ChatService.handleChatError error) = false).
Proof.
  split; [apply handleChatError_instance|].
  split; [|apply handleChatError_detail].
  unfold ChatService.handleChatError.
  destruct (truthy error && String.eqb (typeof error) "object" && has_prop "detail" error)
    eqn:Hdetail.
  - destruct (new_Error_props (get_opt "detail" error)) as (ps & -> & Hps).
    now destruct Hps as [-> | [m ->]].
  - destruct (instanceof_Error error) eqn:Hinst.
    + now rewrite Hdetail, Hinst.
    + reflexivity.
Qed.

Lemma handleChatError_gives_Error_witness :
  ChatService.handleChatError NetworkError
  = new_Error (VStr "Network error - please check your connection") /\
  is_api_error (ChatService.handleChatError NetworkError) = false.
Proof.
  destruct (handleChatError_gives_Error NetworkError) as (_ & _ & H).
  destruct (H eq_refl) as (Hnew & _ & _ & Hshape).
  split; [exact Hnew|exact Hshape].
Defined.

(** X9.  Whatever the conversation-list call settles with, [getChats]
    either returns a value whose [chats] is an array or throws an [Error]
    object; it throws only when the call itself was rejected. *)
Theorem getChats_returns_chats_array (r : Completion (AxiosResponse JsVal)) :
  match r with
  | Normal response =>
      exists page,
        ChatService.getChats r = Normal page /\
        isArray (get_opt "chats" page) = true
  | Throw error =>
      ChatService.getChats r = Throw (ChatService.handleChatError error) /\
      instanceof_Error (ChatService.handleChatError error) = true
  end.
Proof.
  destruct r as [response|error].
  - unfold ChatService.getChats. cbn [bind try_catch].
    rewrite object_guard.
    destruct (is_object (body response)) eqn:Hobj; cbn [negb].
    + assert (Hget : get_prop "chats" (body response)
                     = Normal (get_opt "chats" (body response))).
      { unfold get_opt. destruct (body response); simpl in *; try discriminate; reflexivity. }
      rewrite Hget. cbn [bind].
      destruct (isArray (get_opt "chats" (body response))) eqn:Harr; cbn [negb].
      * eexists. split; [reflexivity|exact Harr].
      * destruct (set_prop "chats" (VArr [] []) (body response)) as [page|e] eqn:Hset.
        -- exists page. split; [reflexivity|].
           now rewrite (chats_coerced _ _ Hobj Hset).
        -- destruct (body response); simpl in *; discriminate.
    + exists ChatService.empty_page. split; reflexivity.
  - split; [reflexivity|]. apply handleChatError_instance.
Qed.

(** ** ChatContext.tsx: the retry loop and sendMessage *)
Section SendMore.
Variable getErrorMessage : JsVal -> string.

Implicit Types (attempt : nat -> Completion (option ChatMessageResponse.t)).

Lemma send_with_retry_shape (md : ChatMessageRequest.t) attempt :
  exists r effs,
    send_with_retry md attempt = Some (r, effs) /\
    (1 <= posts effs <= 3)%nat /\
    delays effs = take (posts effs - 1) [1000; 2000] /\
    posts_of md effs.
Proof.
  assert (Hdone : forall (r : Completion (option ChatMessageResponse.t)) effs,
            (1 <= posts effs <= 3)%nat ->
            delays effs = take (posts effs - 1) [1000; 2000] ->
            posts_of md effs ->
            forall x, x = Some (r, effs) ->
            exists r effs,
              x = Some (r, effs) /\
              (1 <= posts effs <= 3)%nat /\
              delays effs = take (posts effs - 1) [1000; 2000] /\
              posts_of md effs) by (intros; subst; eauto 10).
  assert (H1 : posts_of md [PostMessage md]).
  { unfold posts_of. repeat (apply Forall_cons; split; [eauto|]). constructor. }
  assert (H2 : posts_of md [PostMessage md; SetTimeout 1000; PostMessage md]).
  { unfold posts_of. repeat (apply Forall_cons; split; [eauto|]). constructor. }
  assert (H3 : posts_of md [PostMessage md; SetTimeout 1000; PostMessage md;
                            SetTimeout 2000; PostMessage md]).
  { unfold posts_of. repeat (apply Forall_cons; split; [eauto|]). constructor. }
  unfold send_with_retry. simpl.
  destruct (attempt 0%nat) as [?|e0].
  { eapply Hdone; [| |exact H1|reflexivity]; [unfold posts; simpl; lia|reflexivity]. }
  destruct (is_api_error e0);
    [|eapply Hdone; [| |exact H1|reflexivity]; [unfold posts; simpl; lia|reflexivity]].
  destruct (is_network_error e0);
    [|eapply Hdone; [| |exact H1|reflexivity]; [unfold posts; simpl; lia|reflexivity]].
  destruct (attempt 1%nat) as [?|e1].
  { eapply Hdone; [| |exact H2|reflexivity]; [unfold posts; simpl; lia|reflexivity]. }
  destruct (is_api_error e1);
    [|eapply Hdone; [| |exact H2|reflexivity]; [unfold posts; simpl; lia|reflexivity]].
  destruct (is_network_error e1);
    [|eapply Hdone; [| |exact H2|reflexivity]; [unfold posts; simpl; lia|reflexivity]].
  destruct (attempt 2%nat) as [?|e2].
  { eapply Hdone; [| |exact H3|reflexivity]; [unfold posts; simpl; lia|reflexivity]. }
  destruct (is_api_error e2);
    [|eapply Hdone; [| |exact H3|reflexivity]; [unfold posts; simpl; lia|reflexivity]].
  destruct (is_network_error e2);
    eapply Hdone; try exact H3; try reflexivity; unfold posts; simpl; lia.
Qed.

(** X10.  However the attempts settle, the retry loop ends after at
    least one and at most three POSTs of the same request body, and the
    timers between them are 1000 ms and then 2000 ms: one timer fewer
    than POSTs. *)
Theorem retry_loop_bounds (md : ChatMessageRequest.t) attempt :
  exists r effs,
    send_with_retry md attempt = Some (r, effs) /\
    (1 <= posts effs <= 3)%nat /\
    delays effs = take (posts effs - 1) [1000; 2000] /\
    posts_of md effs.
Proof. apply send_with_retry_shape. Qed.


Lemma retry_loop_first_answer (md : ChatMessageRequest.t) attempt
    (response : option ChatMessageResponse.t) :
  attempt 0%nat = Normal response ->
  send_with_retry md attempt = Some (Normal response, [PostMessage md]).
Proof.
  intros Hatt. unfold send_with_retry. simpl. now rewrite Hatt.
Qed.

Lemma messageData_omits_temp (currentChat_id : option string) (text : string) :
  ChatMessageRequest.chat_id (messageData currentChat_id text) <> Some "temp".
Proof.
  unfold messageData. simpl. case_bool_decide as Hid; [discriminate|exact Hid].
Qed.

Lemma sendMessage_shape (t0 t1 : Clock) (text : string) attempt (st : ChatState) :
  let currentChat_id := Chat.id <$> currentChat st in
  if blank text || isLoading st then
    sendMessage getErrorMessage t0 t1 text attempt st = Some (st, [])
  else
    exists st' effs last,
      sendMessage getErrorMessage t0 t1 text attempt st = Some (st', effs) /\
      messages st' = messages st ++ [userMessage t0 currentChat_id text; last] /\
      isLoading st' = false /\
      (1 <= posts effs <= 3)%nat /\
      posts_of (messageData currentChat_id text) effs /\
      ChatMessageRequest.chat_id (messageData currentChat_id text) <> Some "temp".
Proof.
  intros cid. unfold sendMessage. fold cid.
  destruct (blank text || isLoading st); [reflexivity|].
  destruct (send_with_retry_shape (messageData cid text) attempt)
    as (r & effs & -> & Hposts & _ & Hall).
  assert (Hshape : exists last (rest : Action),
            (forall s, messages (fst (rest s)) = messages s ++ [last]) /\
            (forall s, snd (rest s) = []) /\
            match send_result cid r with
            | Normal updates => updates
            | Throw error => sendMessage_rejected getErrorMessage t1 cid error
            end = rest).
  { destruct r as [[resp|]|error]; simpl.
    - destruct (ChatMessageResponse.message resp) as [m|]; simpl.
      + exists m. eexists. split; [|split; [|reflexivity]].
        * intros s. destruct (ChatMessageResponse.chat resp) as [c|]; [|reflexivity].
          now case_bool_decide.
        * intros s. destruct (ChatMessageResponse.chat resp) as [c|]; [|reflexivity].
          now case_bool_decide.
      + eexists. eexists. split; [|split; [|reflexivity]]; reflexivity.
    - eexists. eexists. split; [|split; [|reflexivity]]; reflexivity.
    - eexists. eexists. split; [|split; [|reflexivity]]; reflexivity. }
  destruct Hshape as (last & rest & Hmsgs & Heffs & ->).
  unfold seq. simpl.
  destruct (rest _) as [s2 e2] eqn:Hrest.
  exists (fst (setIsLoading false s2)), effs, last.
  pose proof (Hmsgs
    {| chats := chats st; currentChat := currentChat st;
       messages := messages st ++ [userMessage t0 cid text];
       isLoading := true; isChatLoading := isChatLoading st; error := None;
       hasMoreMessages := hasMoreMessages st; currentPage := currentPage st |}) as Hm.
  pose proof (Heffs
    {| chats := chats st; currentChat := currentChat st;
       messages := messages st ++ [userMessage t0 cid text];
       isLoading := true; isChatLoading := isChatLoading st; error := None;
       hasMoreMessages := hasMoreMessages st; currentPage := currentPage st |}) as He.
  rewrite Hrest in Hm, He. simpl in Hm, He. subst e2.
  split; [now rewrite !app_nil_r|].
  split; [simpl; rewrite Hm, <- app_assoc; reflexivity|].
  split; [reflexivity|].
  split; [exact Hposts|]. split; [exact Hall|].
  exact (messageData_omits_temp cid text).
Qed.

(** What the loop returns or throws is the outcome of its last attempt. *)
Lemma send_with_retry_last (md : ChatMessageRequest.t) attempt :
  exists r effs,
    send_with_retry md attempt = Some (r, effs) /\
    r = attempt (posts effs - 1)%nat /\
    (1 <= posts effs <= 3)%nat /\
    posts_of md effs.
Proof.
  assert (Hdone : forall (n : nat) effs,
            posts effs = S n ->
            (n <= 2)%nat ->
            posts_of md effs ->
            forall x, x = Some (attempt n, effs) ->
            exists r effs,
              x = Some (r, effs) /\
              r = attempt (posts effs - 1)%nat /\
              (1 <= posts effs <= 3)%nat /\
              posts_of md effs).
  { intros n effs Hn Hle Hall x ->. exists (attempt n), effs.
    rewrite Hn. replace (S n - 1)%nat with n by lia.
    repeat split; try assumption; lia. }
  assert (H1 : posts_of md [PostMessage md]).
  { unfold posts_of. repeat (apply Forall_cons; split; [eauto|]). constructor. }
  assert (H2 : posts_of md [PostMessage md; SetTimeout 1000; PostMessage md]).
  { unfold posts_of. repeat (apply Forall_cons; split; [eauto|]). constructor. }
  assert (H3 : posts_of md [PostMessage md; SetTimeout 1000; PostMessage md;
                            SetTimeout 2000; PostMessage md]).
  { unfold posts_of. repeat (apply Forall_cons; split; [eauto|]). constructor. }
  unfold send_with_retry. simpl.
  destruct (attempt 0%nat) as [?|e0] eqn:A0.
  { eapply (Hdone 0%nat [PostMessage md]); [reflexivity|lia|exact H1|now rewrite A0]. }
  destruct (is_api_error e0);
    [|eapply (Hdone 0%nat [PostMessage md]); [reflexivity|lia|exact H1|now rewrite A0]].
  destruct (is_network_error e0);
    [|eapply (Hdone 0%nat [PostMessage md]); [reflexivity|lia|exact H1|now rewrite A0]].
  destruct (attempt 1%nat) as [?|e1] eqn:A1.
  { eapply (Hdone 1%nat [PostMessage md; SetTimeout 1000; PostMessage md]); [reflexivity|lia|exact H2|now rewrite A1]. }
  destruct (is_api_error e1);
    [|eapply (Hdone 1%nat [PostMessage md; SetTimeout 1000; PostMessage md]); [reflexivity|lia|exact H2|now rewrite A1]].
  destruct (is_network_error e1);
    [|eapply (Hdone 1%nat [PostMessage md; SetTimeout 1000; PostMessage md]); [reflexivity|lia|exact H2|now rewrite A1]].
  destruct (attempt 2%nat) as [?|e2] eqn:A2.
  { eapply (Hdone 2%nat [PostMessage md; SetTimeout 1000; PostMessage md; SetTimeout 2000; PostMessage md]); [reflexivity|lia|exact H3|now rewrite A2]. }
  destruct (is_api_error e2);
    [|eapply (Hdone 2%nat [PostMessage md; SetTimeout 1000; PostMessage md; SetTimeout 2000; PostMessage md]); [reflexivity|lia|exact H3|now rewrite A2]].
  destruct (is_network_error e2);
    eapply (Hdone 2%nat [PostMessage md; SetTimeout 1000; PostMessage md; SetTimeout 2000; PostMessage md]); try exact H3; try reflexivity; try lia; now rewrite A2.
Qed.

(** X11.  [sendMessage] does nothing when the text is blank or
    [isLoading] is set (a send or a delete under way sets it).
    Otherwise, however the backend answers, it puts exactly two messages
    at the end of the window: the user's message, and then the message
    of the response when the last attempt returned one, or else the
    apology, with [error] cleared in the first case and set to the text
    of the error in the second.  It clears [isLoading], and makes between
    one and three POSTs, all with the same body, whose [chat_id] is never
    the sentinel id of the temporary chat. *)
Theorem sendMessage_adds_one_user_message (t0 t1 : Clock) (text : string) attempt
    (st : ChatState) :
  let currentChat_id := Chat.id <$> currentChat st in
  if blank text || isLoading st then
    sendMessage getErrorMessage t0 t1 text attempt st = Some (st, [])
  else
    exists st' effs last,
      sendMessage getErrorMessage t0 t1 text attempt st = Some (st', effs) /\
      messages st' = messages st ++ [userMessage t0 currentChat_id text; last] /\
      isLoading st' = false /\
      (1 <= posts effs <= 3)%nat /\
      posts_of (messageData currentChat_id text) effs /\
      ChatMessageRequest.chat_id (messageData currentChat_id text) <> Some "temp" /\
      match attempt (posts effs - 1)%nat with
      | Normal (Some resp) =>
          match ChatMessageResponse.message resp with
          | Some m => last = m /\ error st' = None
          | None =>
              last = errorMsg t1 currentChat_id /\
              error st' =
                Some (getErrorMessage (new_Error (VStr "Invalid response from server")))
          end
      | Normal None =>
          last = errorMsg t1 currentChat_id /\
          error st' =
            Some (getErrorMessage (new_Error (VStr "Invalid response from server")))
      | Throw err =>
          last = errorMsg t1 currentChat_id /\
          error st' = Some (getErrorMessage err)
      end.
Proof.
  intros cid. unfold sendMessage. fold cid.
  destruct (blank text || isLoading st); [reflexivity|].
  destruct (send_with_retry_last (messageData cid text) attempt)
    as (r & effs & -> & Hr & Hposts & Hall).
  assert (Hrun : exists st' last,
    (setMessages (fun prev => prev ++ [userMessage t0 cid text]) >>
     setIsLoading true >> setError None >> (fun st0 => (st0, effs)) >>
     match send_result cid r with
     | Normal updates => updates
     | Throw error => sendMessage_rejected getErrorMessage t1 cid error
     end >> setIsLoading false) st = (st', effs) /\
    messages st' = messages st ++ [userMessage t0 cid text; last] /\
    isLoading st' = false /\
    match r with
    | Normal (Some resp) =>
        match ChatMessageResponse.message resp with
        | Some m => last = m /\ error st' = None
        | None =>
            last = errorMsg t1 cid /\
            error st' =
              Some (getErrorMessage (new_Error (VStr "Invalid response from server")))
        end
    | Normal None =>
        last = errorMsg t1 cid /\
        error st' =
          Some (getErrorMessage (new_Error (VStr "Invalid response from server")))
    | Throw err => last = errorMsg t1 cid /\ error st' = Some (getErrorMessage err)
    end).
  { unfold send_result, sendMessage_fulfilled, sendMessage_rejected.
    destruct r as [[resp|]|err]; cbn [bind];
      [destruct (ChatMessageResponse.message resp) as [m|];
       [destruct (ChatMessageResponse.chat resp) as [ch|]; [case_bool_decide|]|]| |];
      run_actions; cbn [app]; rewrite ?app_nil_r;
      do 2 eexists; (split; [reflexivity|]);
      cbn [app]; rewrite <- app_assoc; repeat split. }
  destruct Hrun as (st' & last & -> & Hwin & Hload & Hlast).
  exists st', effs, last. rewrite <- Hr.
  split; [reflexivity|]. split; [exact Hwin|]. split; [exact Hload|].
  split; [exact Hposts|]. split; [exact Hall|].
  split; [exact (messageData_omits_temp cid text)|exact Hlast].
Qed.

(** X12.  When the first attempt returns a response with a message, the
    window ends with the user's message and that message, [error] is
    cleared and there is one POST.  A returned chat whose id differs from
    the current chat's (or any returned chat when there is none) becomes
    current and is put in front of the chat list; otherwise current chat
    and list stay.  The pagination cursor is not touched. *)
Theorem sendMessage_success (t0 t1 : Clock) (text : string) attempt (st : ChatState)
    (resp : ChatMessageResponse.t) (m : Message.t) :
  blank text = false ->
  isLoading st = false ->
  attempt 0%nat = Normal (Some resp) ->
  ChatMessageResponse.message resp = Some m ->
  let currentChat_id := Chat.id <$> currentChat st in
  exists st',
    sendMessage getErrorMessage t0 t1 text attempt st
    = Some (st', [PostMessage (messageData currentChat_id text)]) /\
    messages st' = messages st ++ [userMessage t0 currentChat_id text; m] /\
    error st' = None /\
    isLoading st' = false /\
    hasMoreMessages st' = hasMoreMessages st /\
    currentPage st' = currentPage st /\
    match ChatMessageResponse.chat resp with
    | Some chat =>
        if bool_decide (Some (Chat.id chat) = currentChat_id)
        then currentChat st' = currentChat st /\ chats st' = chats st
        else currentChat st' = Some chat /\ chats st' = chat :: chats st
    | None => currentChat st' = currentChat st /\ chats st' = chats st
    end.
Proof.
  intros Hblank Hidle Hatt Hmsg cid.
  unfold sendMessage. rewrite Hblank, Hidle. cbn [orb]. fold cid.
  rewrite (retry_loop_first_answer _ _ _ Hatt).
  unfold send_result, sendMessage_fulfilled. cbn [bind]. rewrite Hmsg.
  destruct (ChatMessageResponse.chat resp) as [chat|].
  - destruct (decide (Some (Chat.id chat) = cid)) as [Heq|Hne].
    + rewrite (bool_decide_eq_false_2 _ (fun H => H Heq)).
      rewrite (bool_decide_eq_true_2 _ Heq).
      run_actions. eexists. split; [reflexivity|].
      cbn [app]. rewrite <- app_assoc. repeat split.
    + rewrite (bool_decide_eq_true_2 _ Hne).
      rewrite (bool_decide_eq_false_2 _ Hne).
      run_actions. eexists. split; [reflexivity|].
      cbn [app]. rewrite <- app_assoc. repeat split.
  - run_actions. eexists. split; [reflexivity|].
    cbn [app]. rewrite <- app_assoc. repeat split.
Qed.

(** X13.  A call that the backend answers without a message (an empty
    body, or a body with no [message]) is not retried and ends like a
    failure: one POST, the apology after the user's message, the text of
    the error "Invalid response from server" in [error]; a chat that came
    with such a response is ignored. *)
Theorem sendMessage_invalid_response (t0 t1 : Clock) (text : string) attempt
    (st : ChatState) (response : option ChatMessageResponse.t) :
  blank text = false ->
  isLoading st = false ->
  attempt 0%nat = Normal response ->
  response ≫= ChatMessageResponse.message = None ->
  let currentChat_id := Chat.id <$> currentChat st in
  exists st',
    sendMessage getErrorMessage t0 t1 text attempt st
    = Some (st', [PostMessage (messageData currentChat_id text)]) /\
    messages st' =
      messages st ++ [userMessage t0 currentChat_id text; errorMsg t1 currentChat_id] /\
    error st' = Some (getErrorMessage (new_Error (VStr "Invalid response from server"))) /\
    currentChat st' = currentChat st /\
    chats st' = chats st /\
    isLoading st' = false.
Proof.
  intros Hblank Hidle Hatt Hmsg cid.
  unfold sendMessage. rewrite Hblank, Hidle. cbn [orb]. fold cid.
  rewrite (retry_loop_first_answer _ _ _ Hatt).
  assert (Hres : send_result cid (Normal response)
                 = Throw (new_Error (VStr "Invalid response from server"))).
  { unfold send_result, sendMessage_fulfilled. cbn [bind].
    destruct response as [resp|]; [|reflexivity].
    cbn in Hmsg. now rewrite Hmsg. }
  rewrite Hres. unfold sendMessage_rejected.
  run_actions. eexists. split; [reflexivity|].
  cbn [app]. rewrite <- app_assoc. repeat split.
Qed.

Lemma one_attempt_when_not_retried (t0 t1 : Clock) (text : string) (st : ChatState)
    (rejection : JsVal) :
  blank text = false ->
  isLoading st = false ->
  is_api_error (ChatService.handleChatError rejection) = false ->
  let currentChat_id := Chat.id <$> currentChat st in
  exists st',
    sendMessage getErrorMessage t0 t1 text
      (fun _ => ChatService.sendMessage (Throw rejection)) st
    = Some (st', [PostMessage (messageData currentChat_id text)]) /\
    messages st' =
      messages st ++ [userMessage t0 currentChat_id text; errorMsg t1 currentChat_id] /\
    error st' = Some (getErrorMessage (ChatService.handleChatError rejection)).
Proof.
  intros Hblank Hidle Hshape cid.
  unfold sendMessage. rewrite Hblank, Hidle. cbn [orb]. fold cid.
  rewrite (retry_loop_other_error (messageData cid text) _
             (ChatService.handleChatError rejection));
    [|reflexivity|now rewrite Hshape].
  unfold send_result. cbn [bind]. unfold sendMessage_rejected.
  run_actions. eexists. split; [reflexivity|].
  cbn [app]. rewrite <- app_assoc. split; reflexivity.
Qed.

Lemma onResponseError_cases (e : AxiosError) (b : Browser) :
  (exists tok req, onResponseError e b = (b, Refreshing tok req)) \/
  (exists e', onResponseError e b = (b, Reject (normalized e'))).
Proof.
  unfold onResponseError.
  destruct (status_is_401 e && negb (_retry (config e)) &&
            negb (isAuthEndpoint (url (config e)))).
  - destruct (truthy (get_opt "refresh_token" (getStoredTokens b))); [eauto|].
    right. rewrite reject_transformed_normalized. eauto.
  - right. rewrite reject_transformed_normalized. eauto.
Qed.

Lemma raw_axios_error_not_retried (e : AxiosError) :
  not_retried (Reject (axios_error_val e)).
Proof.
  unfold not_retried, axios_error_val.
  destruct (request e); destruct (response e); reflexivity.
Qed.

Lemma normalized_not_retried (e : AxiosError) :
  not_retried (Reject (normalized e)).
Proof.
  unfold not_retried.
  now destruct (handleChatError_detail _ (normalized_has_detail e)) as (_ & _ & _ & H).
Qed.

Lemma step_keeps_not_retried (w : World) (ev : Api.Event) :
  refresh_fails_as_axios ev ->
  Forall not_retried (settled w) ->
  Forall not_retried (settled (step w ev)).
Proof.
  intros Hev Hw. destruct ev as [e|i outcome]; unfold step.
  - destruct (onResponseError_cases e (browser w)) as [(tok & req & ->) | (e' & ->)];
      cbn [settled]; [exact Hw|].
    apply Forall_app. split; [exact Hw|].
    apply Forall_cons. split; [apply normalized_not_retried|constructor].
  - destruct (waiting w !! i) as [req|]; [|exact Hw].
    destruct outcome as [newTokens|refreshError].
    + unfold onRefreshed.
      destruct (get_prop "access_token" newTokens) as [tok|err] eqn:Hget;
        cbn [settled fst snd]; apply Forall_app; (split; [exact Hw|]);
        apply Forall_cons; (split; [|constructor]).
      * exact I.
      * unfold onRefreshFailed. cbn [snd].
        assert (err = TypeError) as ->.
        { destruct newTokens; simpl in Hget; congruence. }
        reflexivity.
    + destruct Hev as [e ->].
      unfold onRefreshFailed. cbn [settled fst snd].
      apply Forall_app. split; [exact Hw|].
      apply Forall_cons. split; [apply raw_axios_error_not_retried|constructor].
Qed.

Lemma run_keeps_not_retried (evs : list Api.Event) (w : World) :
  Forall refresh_fails_as_axios evs ->
  Forall not_retried (settled w) ->
  Forall not_retried (settled (Api.run evs w)).
Proof.
  intros Hevs. revert w. unfold Api.run.
  induction Hevs as [|ev evs Hev Hevs IH]; intros w Hw; [exact Hw|].
  cbn [fold_left]. apply IH. now apply step_keeps_not_retried.
Qed.

(** X14.  Whatever the response interceptor rejects the POST with, the
    retry loop does not try again.  Over every interleaving of response
    errors and refresh settlements in which a failing refresh call fails
    with an axios error, every rejection a handler ends with (the
    normalized error of a failed response or of a network failure, also
    of the reissued request; the raw axios error of a failed refresh; the
    TypeError of a refresh answered with an empty body) is rethrown by
    [ChatService.sendMessage] as an [Error] that fails the shape test of
    the loop: [sendMessage] makes one attempt, sets no timer and appends
    the apology. *)
Theorem transport_errors_are_not_retried (t0 t1 : Clock) (text : string)
    (st : ChatState) (evs : list Api.Event) (w : World) (rejection : JsVal) :
  blank text = false ->
  isLoading st = false ->
  Forall refresh_fails_as_axios evs ->
  settled w = [] ->
  Reject rejection ∈ settled (Api.run evs w) ->
  let currentChat_id := Chat.id <$> currentChat st in
  exists st' wrapped,
    ChatService.sendMessage (Throw rejection) = Throw wrapped /\
    is_api_error wrapped = false /\
    sendMessage getErrorMessage t0 t1 text
      (fun _ => ChatService.sendMessage (Throw rejection)) st
    = Some (st', [PostMessage (messageData currentChat_id text)]) /\
    messages st' =
      messages st ++ [userMessage t0 currentChat_id text; errorMsg t1 currentChat_id] /\
    error st' = Some (getErrorMessage wrapped).
Proof.
  intros Hblank Hidle Hevs Hw Hin cid.
  assert (Hall : Forall not_retried (settled (Api.run evs w))).
  { apply run_keeps_not_retried; [exact Hevs|]. rewrite Hw. constructor. }
  rewrite Forall_forall in Hall. specialize (Hall _ Hin). cbn in Hall.
  destruct (one_attempt_when_not_retried t0 t1 text st rejection Hblank Hidle Hall)
    as (st' & Hrun & Hwin & Herr).
  exists st', (ChatService.handleChatError rejection).
  repeat split; assumption.
Qed.

End SendMore.

Lemma sendMessage_success_witness :
  exists st',
    sendMessage Scenario.getErrorMessage Scenario.t0 Scenario.t1 "What is KYC?"
      (fun _ => Normal (Some {| ChatMessageResponse.message := Some Scenario.a1;
                                ChatMessageResponse.chat := Some (Scenario.chat "c1") |}))
      (fst (initializeAnonymousChat Scenario.t0 Scenario.t0 Scenario.t0 initial))
    = Some (st', [PostMessage {| ChatMessageRequest.message := "What is KYC?";
                                 ChatMessageRequest.chat_id := None |}]) /\
    Message.id <$> messages st' = ["welcome-1700000000000"; "user-1700000000000"; "a1"] /\
    currentChat st' = Some (Scenario.chat "c1") /\
    chats st' = [Scenario.chat "c1"].
Proof.
  destruct (sendMessage_success Scenario.getErrorMessage Scenario.t0 Scenario.t1
              "What is KYC?"
              (fun _ => Normal (Some {| ChatMessageResponse.message := Some Scenario.a1;
                                        ChatMessageResponse.chat :=
                                          Some (Scenario.chat "c1") |}))
              (fst (initializeAnonymousChat Scenario.t0 Scenario.t0 Scenario.t0 initial))
              _ Scenario.a1 eq_refl eq_refl eq_refl eq_refl)
    as (st' & Hrun & Hwin & _ & _ & _ & _ & Hchat).
  exists st'. split; [exact Hrun|]. split; [rewrite Hwin; reflexivity|].
  simpl in Hchat. exact Hchat.
Defined.

Lemma sendMessage_invalid_response_witness :
  exists st',
    sendMessage Scenario.getErrorMessage Scenario.t0 Scenario.t1 "What is KYC?"
      (fun _ => Normal (Some {| ChatMessageResponse.message := None;
                                ChatMessageResponse.chat := Some (Scenario.chat "c1") |}))
      Scenario.page1_loaded
    = Some (st', [PostMessage {| ChatMessageRequest.message := "What is KYC?";
                                 ChatMessageRequest.chat_id := Some "A" |}]) /\
    currentChat st' = Some (Scenario.chat "A") /\
    error st' = Some "Invalid response from server".
Proof.
  destruct (sendMessage_invalid_response Scenario.getErrorMessage Scenario.t0 Scenario.t1
              "What is KYC?"
              (fun _ => Normal (Some {| ChatMessageResponse.message := None;
                                        ChatMessageResponse.chat :=
                                          Some (Scenario.chat "c1") |}))
              Scenario.page1_loaded _ eq_refl eq_refl eq_refl eq_refl)
    as (st' & Hrun & _ & Herr & Hcur & _).
  exists st'. split; [exact Hrun|]. split; [exact Hcur|exact Herr].
Defined.

Lemma transport_errors_are_not_retried_witness :
  exists st',
    sendMessage Scenario.getErrorMessage Scenario.t0 Scenario.t1 "What is KYC?"
      (fun _ => ChatService.sendMessage (Throw Scenario.refresh_refused))
      Scenario.page1_loaded
    = Some (st', [PostMessage {| ChatMessageRequest.message := "What is KYC?";
                                 ChatMessageRequest.chat_id := Some "A" |}]) /\
    error st' = Some "Request failed with status code 401".
Proof.
  destruct (transport_errors_are_not_retried Scenario.getErrorMessage Scenario.t0
              Scenario.t1 "What is KYC?" Scenario.page1_loaded
              [ResponseError (Scenario.expired_401 "/chat/message");
               RefreshSettled 0 (Throw Scenario.refresh_refused)]
              Scenario.idle Scenario.refresh_refused eq_refl eq_refl)
    as (st' & wrapped & Hwrap & _ & Hrun & _ & Herr).
  - repeat constructor. eexists. reflexivity.
  - reflexivity.
  - assert (Hset : settled
                     (Api.run [ResponseError (Scenario.expired_401 "/chat/message");
                               RefreshSettled 0 (Throw Scenario.refresh_refused)]
                        Scenario.idle)
                   = [Reject Scenario.refresh_refused]) by (vm_compute; reflexivity).
    rewrite Hset. constructor.
  - exists st'. split; [exact Hrun|].
    rewrite Herr. injection Hwrap as <-. reflexivity.
Defined.

(** ** ChatContext.tsx: the conversation state machine *)
Section StateMachine.
Variable getErrorMessage : JsVal -> string.

Implicit Types (attempt : nat -> Completion (option ChatMessageResponse.t)).

(** [sendMessage] never touches the pagination cursor or the load flag. *)
Lemma sendMessage_keeps_pagination (t0 t1 : Clock) (text : string) attempt
    (st st' : ChatState) (effs : list Effect) :
  sendMessage getErrorMessage t0 t1 text attempt st = Some (st', effs) ->
  hasMoreMessages st' = hasMoreMessages st /\
  currentPage st' = currentPage st /\
  isChatLoading st' = isChatLoading st.
Proof.
  unfold sendMessage.
  destruct (blank text || isLoading st).
  { unfold skip. intros H. inversion H; subst. repeat split. }
  destruct (send_with_retry _ attempt) as [[r effs0]|]; [|discriminate].
  intros H. injection H as H.
  destruct r as [[resp|]|error]; simpl in H.
  - destruct (ChatMessageResponse.message resp) as [m|]; simpl in H.
    + destruct (ChatMessageResponse.chat resp) as [c|].
      * case_bool_decide; simpl in H; inversion H; repeat split.
      * simpl in H. inversion H. repeat split.
    + inversion H. repeat split.
  - inversion H. repeat split.
  - inversion H. repeat split.
Qed.

(** X15.  A chat list that arrives replaces the list.  The current chat
    is kept when there is one, also when the new list does not contain
    it; when there is none, the first chat of the list becomes current,
    and an empty list leaves it unset.  The window is not touched.  When
    the call fails the list is emptied and the error recorded, and the
    current chat stays. *)
Theorem loadChats_settles (r : Completion (list Chat.t)) (st : ChatState) :
  let st' := fst (match r with
                  | Normal cs => loadChats_fulfilled cs st
                  | Throw err => loadChats_rejected getErrorMessage err st
                  end) in
  chats st' = match r with Normal cs => cs | Throw _ => [] end /\
  currentChat st' =
    match currentChat st, r with
    | None, Normal cs => head cs
    | cur, _ => cur
    end /\
  error st' = match r with
              | Normal _ => error st
              | Throw err => Some (getErrorMessage err)
              end /\
  messages st' = messages st /\
  isChatLoading st' = false.
Proof.
  destruct r as [[|c cs]|err]; simpl; repeat split;
    now destruct (currentChat st).
Qed.

(** X16.  An anonymous session never asks the backend for anything but
    the POST of a message, and never names the temporary chat in it.
    From a state without further pages (as [initializeAnonymousChat]
    leaves the initial state), whatever sequence of sends, new chats,
    clears, load-more clicks and chat changes follows, every effect is a
    POST without the sentinel id, or a timer, and [hasMoreMessages] stays
    false. *)
Theorem anonymous_session_only_posts (ops : list Session.Op) (st : ChatState) :
  hasMoreMessages st = false ->
  Forall (fun e => Session.is_post_or_timer e = true /\ Session.mentions_temp e = false)
         (snd (Session.run getErrorMessage ops st)) /\
  hasMoreMessages (fst (Session.run getErrorMessage ops st)) = false.
Proof.
  revert st. induction ops as [|op ops IH]; intros st Hno; simpl.
  { split; [constructor|exact Hno]. }
  assert (Hop : Forall (fun e => Session.is_post_or_timer e = true /\
                                 Session.mentions_temp e = false)
                       (snd (Session.apply getErrorMessage op st)) /\
                hasMoreMessages (fst (Session.apply getErrorMessage op st)) = false).
  { destruct op as [t0 t1 text attempt|c|c| | |]; simpl.
    - pose proof (sendMessage_shape getErrorMessage t0 t1 text attempt st) as Hsend.
      cbv zeta in Hsend.
      destruct (blank text || isLoading st).
      + rewrite Hsend. split; [constructor|exact Hno].
      + destruct Hsend as (st' & effs & last & Hrun & _ & _ & _ & Hall & Htemp).
        rewrite Hrun. simpl.
        destruct (sendMessage_keeps_pagination _ _ _ _ _ _ _ Hrun) as (-> & _ & _).
        split; [|exact Hno].
        unfold posts_of in Hall. eapply Forall_impl; [exact Hall|].
        intros e [-> | [ms ->]]; simpl; [|split; reflexivity].
        split; [reflexivity|]. now apply bool_decide_eq_false_2.
    - split; [constructor|exact Hno].
    - split; [constructor|exact Hno].
    - unfold loadMoreMessages. destruct (currentChat st); simpl;
        [rewrite Hno; simpl|]; (split; [constructor|exact Hno]).
    - split; [constructor|exact Hno].
    - unfold onCurrentChatChange. destruct (currentChat st); simpl;
        (split; [constructor|exact Hno]). }
  destruct (Session.apply getErrorMessage op st) as [st1 e1]. simpl in Hop.
  destruct Hop as [He1 Hst1].
  specialize (IH st1 Hst1).
  destruct (Session.run getErrorMessage ops st1) as [st2 e2]. simpl in *.
  destruct IH as [He2 Hst2].
  split; [|exact Hst2]. apply Forall_app. split; assumption.
Qed.

End StateMachine.

Lemma anonymous_session_only_posts_witness :
  snd (Session.run Scenario.getErrorMessage
         [Session.LoadMore;
          Session.Send Scenario.t0 Scenario.t1 "What is KYC?" (fun _ => Throw NetworkError);
          Session.NewChat Scenario.t1;
          Session.ChatChanged;
          Session.LoadMore]
         (fst (initializeAnonymousChat Scenario.t0 Scenario.t0 Scenario.t0 initial)))
  = [PostMessage {| ChatMessageRequest.message := "What is KYC?";
                    ChatMessageRequest.chat_id := None |};
     SetTimeout 1000;
     PostMessage {| ChatMessageRequest.message := "What is KYC?";
                    ChatMessageRequest.chat_id := None |};
     SetTimeout 2000;
     PostMessage {| ChatMessageRequest.message := "What is KYC?";
                    ChatMessageRequest.chat_id := None |}] /\
  Forall (fun e => Session.is_post_or_timer e = true /\ Session.mentions_temp e = false)
    (snd (Session.run Scenario.getErrorMessage
            [Session.LoadMore;
             Session.Send Scenario.t0 Scenario.t1 "What is KYC?"
               (fun _ => Throw NetworkError);
             Session.NewChat Scenario.t1;
             Session.ChatChanged;
             Session.LoadMore]
            (fst (initializeAnonymousChat Scenario.t0 Scenario.t0 Scenario.t0 initial)))).
Proof.
  split; [reflexivity|].
  apply (anonymous_session_only_posts Scenario.getErrorMessage). reflexivity.
Defined.

Section Navigation.
Variable getErrorMessage : JsVal -> string.

(** X17.  [switchChat] run to its end.  When both calls succeed, the
    fetched chat is current, the window is the first page as returned,
    [currentPage] is 1 and [hasMoreMessages] the page's [has_next].
    When [getChat] fails, nothing but [error] changes and no message
    request is made.  When [getChat] succeeds and the message load fails,
    the fetched chat is already current while the window still holds the
    messages of the chat shown before.  The messages are asked for under
    the id the caller gave, not the id of the fetched chat; the load flag
    is cleared in every case. *)
Theorem switchChat_outcomes (chatId : string) (rc : Completion Chat.t)
    (rm : Completion PaginatedMessages.t) (st : ChatState) :
  exists st' effs,
    switchChat_run getErrorMessage chatId rc rm st = (st', effs) /\
    isChatLoading st' = false /\
    chats st' = chats st /\
    match rc, rm with
    | Normal chat, Normal response =>
        effs = [GetChat chatId; GetMessages chatId 1 CONSTANTS.DEFAULT_PAGE_SIZE] /\
        currentChat st' = Some chat /\
        messages st' = PaginatedMessages.messages response /\
        currentPage st' = 1 /\
        hasMoreMessages st' = PaginatedMessages.has_next response /\
        error st' = None
    | Normal chat, Throw err =>
        effs = [GetChat chatId; GetMessages chatId 1 CONSTANTS.DEFAULT_PAGE_SIZE] /\
        currentChat st' = Some chat /\
        messages st' = messages st /\
        currentPage st' = 1 /\
        hasMoreMessages st' = hasMoreMessages st /\
        error st' = Some (getErrorMessage err)
    | Throw err, _ =>
        effs = [GetChat chatId] /\
        currentChat st' = currentChat st /\
        messages st' = messages st /\
        currentPage st' = currentPage st /\
        hasMoreMessages st' = hasMoreMessages st /\
        error st' = Some (getErrorMessage err)
    end.
Proof.
  unfold switchChat_run, switchChat, switchChat_fulfilled, switchChat_rejected,
    loadMessages_settled, loadMessages_fulfilled, loadMessages_rejected, loadMessages.
  destruct rc as [chat|err]; [destruct rm as [response|err]|];
    run_actions; cbn [Z.eqb Pos.eqb app];
    do 2 eexists; (split; [reflexivity|]); repeat split.
Qed.

(** X18.  Deleting a chat that is not the current one takes it out of
    the list, keeping the others in their order, and touches neither the
    current chat nor the window nor the pagination cursor; the DELETE is
    the only call.  No chat with the deleted id is left in the list, also
    when the list held it more than once. *)
Theorem deleteChat_of_other (c : Clock) (isAuthenticated : bool) (chatId : string)
    (st : ChatState) :
  Chat.id <$> currentChat st <> Some chatId ->
  exists st',
    deleteChat_run getErrorMessage c isAuthenticated chatId (Normal tt) st
    = (st', [DeleteChat chatId]) /\
    chats st' =
      List.filter (fun chat => negb (String.eqb (Chat.id chat) chatId)) (chats st) /\
    Forall (fun chat => Chat.id chat <> chatId) (chats st') /\
    currentChat st' = currentChat st /\
    messages st' = messages st /\
    currentPage st' = currentPage st /\
    hasMoreMessages st' = hasMoreMessages st /\
    error st' = None /\
    isLoading st' = false.
Proof.
  intros Hother.
  unfold deleteChat_run, deleteChat_fulfilled, deleteChat.
  unfold seq at 1. unfold seq at 1. cbn -[List.filter bool_decide].
  rewrite bool_decide_eq_false_2 by exact Hother.
  eexists. split; [reflexivity|]. cbn -[List.filter]. repeat split.
  apply Forall_forall. intros chat Hin.
  apply list_elem_of_In, filter_In in Hin as [_ Hne].
  apply negb_true_iff, String.eqb_neq in Hne. exact Hne.
Qed.

(** X19.  When the backend refuses the DELETE, the chat stays in the
    list and the current chat, the window and the cursor stay as they
    are; the error text is recorded and [isLoading] is cleared. *)
Theorem deleteChat_failed (c : Clock) (isAuthenticated : bool) (chatId : string)
    (err : JsVal) (st : ChatState) :
  exists st',
    deleteChat_run getErrorMessage c isAuthenticated chatId (Throw err) st
    = (st', [DeleteChat chatId]) /\
    chats st' = chats st /\
    currentChat st' = currentChat st /\
    messages st' = messages st /\
    currentPage st' = currentPage st /\
    error st' = Some (getErrorMessage err) /\
    isLoading st' = false.
Proof.
  eexists. split; [reflexivity|]. repeat split.
Qed.

(** X20.  One round of paging.  With a current chat, more messages
    announced and no load in flight, [loadMoreMessages] asks for the page
    after [currentPage] of the current chat; a second call before the
    answer is dropped.  When the page arrives it is put in front of the
    window and [currentPage] moves on by one; and when it says
    [has_next = false], further calls of [loadMoreMessages] do nothing. *)
Theorem loadMore_round (chat : Chat.t) (response : PaginatedMessages.t) (st : ChatState) :
  currentChat st = Some chat ->
  hasMoreMessages st = true ->
  isChatLoading st = false ->
  1 <= currentPage st ->
  let st1 := fst (loadMoreMessages st) in
  let st2 := fst (loadMessages_fulfilled (currentPage st + 1) response st1) in
  snd (loadMoreMessages st)
  = [GetMessages (Chat.id chat) (currentPage st + 1) CONSTANTS.DEFAULT_PAGE_SIZE] /\
  loadMoreMessages st1 = (st1, []) /\
  messages st2 = PaginatedMessages.messages response ++ messages st /\
  currentPage st2 = currentPage st + 1 /\
  currentChat st2 = Some chat /\
  (PaginatedMessages.has_next response = false -> loadMoreMessages st2 = (st2, [])).
Proof.
  intros Hcur Hmore Hidle Hpage st1 st2.
  assert (Hst1 : loadMoreMessages st
                 = (fst (setIsChatLoading true st),
                    [GetMessages (Chat.id chat) (currentPage st + 1)
                       CONSTANTS.DEFAULT_PAGE_SIZE])).
  { unfold loadMoreMessages. rewrite Hcur, Hmore, Hidle. reflexivity. }
  subst st2 st1. rewrite Hst1. cbn [fst snd].
  split; [reflexivity|]. split.
  { unfold loadMoreMessages. simpl. rewrite Hcur. now rewrite orb_true_r. }
  unfold loadMessages_fulfilled.
  destruct (Z.eqb_spec (currentPage st + 1) 1) as [Heq|_]; [lia|].
  simpl. repeat split; [exact Hcur|].
  intros Hlast. unfold loadMoreMessages. simpl. rewrite Hcur, Hlast. reflexivity.
Qed.

End Navigation.

Lemma deleteChat_of_other_witness :
  exists st',
    deleteChat_run Scenario.getErrorMessage Scenario.t0 true "B" (Normal tt)
      Scenario.page1_loaded = (st', [DeleteChat "B"]) /\
    chats st' = [Scenario.chat "A"] /\
    currentChat st' = Some (Scenario.chat "A") /\
    messages st' = messages Scenario.page1_loaded.
Proof.
  destruct (deleteChat_of_other Scenario.getErrorMessage Scenario.t0 true "B"
              Scenario.page1_loaded)
    as (st' & Hrun & Hchats & _ & Hcur & Hwin & _).
  - discriminate.
  - exists st'. split; [exact Hrun|]. split; [exact Hchats|].
    split; [exact Hcur|exact Hwin].
Defined.

Lemma loadMore_round_witness :
  messages
    (fst (loadMessages_fulfilled 2
            (Scenario.page_of [Scenario.a1; Scenario.a2; Scenario.a3] 2 false)
            (fst (loadMoreMessages Scenario.page1_loaded))))
  = [Scenario.a1; Scenario.a2; Scenario.a3; Scenario.a4; Scenario.a5; Scenario.a6] /\
  loadMoreMessages
    (fst (loadMessages_fulfilled 2
            (Scenario.page_of [Scenario.a1; Scenario.a2; Scenario.a3] 2 false)
            (fst (loadMoreMessages Scenario.page1_loaded))))
  = (fst (loadMessages_fulfilled 2
            (Scenario.page_of [Scenario.a1; Scenario.a2; Scenario.a3] 2 false)
            (fst (loadMoreMessages Scenario.page1_loaded))), []).
Proof.
  destruct (loadMore_round (Scenario.chat "A")
              (Scenario.page_of [Scenario.a1; Scenario.a2; Scenario.a3] 2 false)
              Scenario.page1_loaded eq_refl eq_refl eq_refl)
    as (_ & _ & Hwin & _ & _ & Hstop).
  - simpl. lia.
  - split; [exact Hwin|]. apply Hstop. reflexivity.
Defined.

(** ** services/authService.ts and AuthContext.tsx *)

(** X21.  [handleAuthError] turns an error into a plain object with a
    [detail] and a truthy [status_code], never an [Error].  A falsy
    [status_code] is replaced by 500, so of a normalized axios error the
    HTTP status is kept, except that the network error (status 0) and the
    unknown error both come out as 500. *)
Theorem handleAuthError_status (error : JsVal) (e : AxiosError) :
  let r := AuthService.handleAuthError error in
  instanceof_Error r = false /\
  has_prop "detail" r = true /\
  truthy (get_opt "status_code" r) = true /\
  get_opt "status_code" (AuthService.handleAuthError (normalized e)) =
    VNum (match response e with
          | Some resp => if status resp =? 0 then 500 else status resp
          | None => 500
          end).
Proof.
  cbv zeta. unfold AuthService.handleAuthError.
  split; [|split; [|split]].
  - destruct (truthy error && _ && has_prop "detail" error); [reflexivity|].
    now destruct (instanceof_Error error).
  - destruct (truthy error && _ && has_prop "detail" error); [reflexivity|].
    now destruct (instanceof_Error error).
  - destruct (truthy error && _ && has_prop "detail" error).
    + unfold get_opt at 1. simpl. unfold or_else.
      now destruct (truthy (get_opt "status_code" error)) eqn:Hs.
    + now destruct (instanceof_Error error).
  - unfold normalized.
    destruct (response e) as [resp|]; [|now destruct (request e)].
    simpl. unfold get_opt, or_else. simpl.
    now destruct (status resp =? 0).
Qed.

Section Bootstrap.
Variable storage_get : string -> Browser -> Completion JsVal.
Variable storage_set : string -> JsVal -> Browser -> Browser.
Variable storage_remove : string -> Browser -> Browser.

(** X22.  [initializeAuth] asks the backend only when both saved entries
    read as truthy.  With a user entry but no token entry, which is what
    a failed refresh leaves behind, it makes no call, leaves the session
    absent and leaves the user entry where it is; [isInitializing] ends
    false. *)
Theorem initializeAuth_without_tokens (me : Browser -> Browser * Completion JsVal)
    (b : Browser)
    (s : AuthContext.AuthState) (savedUser savedTokens : JsVal) :
  storage_get STORAGE_KEYS.USER b = Normal savedUser ->
  storage_get STORAGE_KEYS.TOKENS b = Normal savedTokens ->
  truthy savedUser && truthy savedTokens = false ->
  AuthContext.initializeAuth storage_get storage_remove me b s
  = (b, AuthContext.setIsInitializing false s, []).
Proof.
  intros Hu Ht Hboth. unfold AuthContext.initializeAuth.
  rewrite Hu. simpl. rewrite Ht. simpl. rewrite Hboth.
  now destruct s.
Qed.

(** X23.  With both entries saved, [initializeAuth] validates them with
    one [getCurrentUser] call.  On success the session user is the user
    just fetched, not the saved one, and [initializeAuth] writes nothing
    itself: storage and location are as the interceptors left them during
    the call, and the saved copy of the user is not renewed.  On failure
    both entries are removed from the browser as the call left it, and the
    session is absent.  [isInitializing] ends false either way. *)
Theorem initializeAuth_validates (me : Browser -> Browser * Completion JsVal)
    (b : Browser) (s : AuthContext.AuthState) (savedUser savedTokens : JsVal) :
  storage_get STORAGE_KEYS.USER b = Normal savedUser ->
  storage_get STORAGE_KEYS.TOKENS b = Normal savedTokens ->
  truthy savedUser = true ->
  truthy savedTokens = true ->
  exists b' s',
    AuthContext.initializeAuth storage_get storage_remove me b s
    = (b', s', [AuthContext.CallGetCurrentUser]) /\
    AuthContext.isInitializing s' = false /\
    AuthContext.isLoading s' = AuthContext.isLoading s /\
    match snd (me b) with
    | Normal currentUser =>
        AuthContext.user s' = currentUser /\
        b' = fst (me b)
    | Throw _ =>
        AuthContext.user s' = VNull /\
        b' = storage_remove STORAGE_KEYS.TOKENS
               (storage_remove STORAGE_KEYS.USER (fst (me b)))
    end.
Proof.
  intros Hu Ht Htu Htt. unfold AuthContext.initializeAuth.
  rewrite Hu. simpl. rewrite Ht. simpl. rewrite Htu, Htt. simpl.
  destruct (me b) as [b1 [currentUser|err]]; simpl;
    do 2 eexists; (split; [reflexivity|]); repeat split.
Qed.

(** X24.  [login] and [register] fetch the profile before they store the
    tokens they received: in a browser without an access token the
    [/auth/me] request leaves the request interceptor without an
    [Authorization] header, and the interceptor sets the location to the
    start page.  [signin] stores the tokens first, so its [/auth/me]
    request carries the new access token and the location stays. *)
Theorem profile_request_after_login (tokens : JsVal) (b : Browser) :
  truthy (get_opt "access_token" (getStoredTokens b)) = false ->
  getStoredTokens (storage_set STORAGE_KEYS.TOKENS tokens b) = tokens ->
  truthy (get_opt "access_token" tokens) = true ->
  (exists b' cfg,
     AuthContext.login_getCurrentUser tokens b = (b', cfg) /\
     headers cfg !! "Authorization" = None /\
     location_href b' = "/") /\
  (exists cfg,
     AuthContext.signin_getCurrentUser storage_set tokens b
     = (storage_set STORAGE_KEYS.TOKENS tokens b, cfg) /\
     headers cfg !! "Authorization"
     = Some ("Bearer " +:+ to_string (get_opt "access_token" tokens))).
Proof.
  intros Hno Hset Htok. split.
  - unfold AuthContext.login_getCurrentUser, onRequest. rewrite Hno.
    do 2 eexists. split; [reflexivity|]. split; reflexivity.
  - unfold AuthContext.signin_getCurrentUser, onRequest. rewrite Hset, Htok.
    eexists. split; [reflexivity|]. simpl.
    rewrite lookup_insert_ne by discriminate. apply lookup_insert_eq.
Qed.

End Bootstrap.

Lemma initializeAuth_without_tokens_witness :
  AuthContext.initializeAuth Scenario.storage_get Scenario.storage_remove
    (fun b => (b, Normal Scenario.profile)) Scenario.expired_session AuthContext.initial
  = (Scenario.expired_session,
     AuthContext.setIsInitializing false AuthContext.initial, []) /\
  localStorage Scenario.expired_session !! STORAGE_KEYS.USER = Some (Ser Scenario.profile).
Proof.
  split.
  - apply (initializeAuth_without_tokens Scenario.storage_get Scenario.storage_remove
             (fun b => (b, Normal Scenario.profile)) Scenario.expired_session
             AuthContext.initial
             Scenario.profile VNull); vm_compute; reflexivity.
  - vm_compute. reflexivity.
Defined.

Lemma initializeAuth_validates_witness :
  (exists b' s',
     AuthContext.initializeAuth Scenario.storage_get Scenario.storage_remove
       Scenario.me_after_expiry Scenario.signed_in AuthContext.initial
     = (b', s', [AuthContext.CallGetCurrentUser]) /\
     AuthContext.user s' = Scenario.profile /\
     getStoredTokens b' = Scenario.renewed_tokens /\
     b' <> Scenario.signed_in) /\
  (exists b' s',
     AuthContext.initializeAuth Scenario.storage_get Scenario.storage_remove
       Scenario.me_refresh_refused Scenario.signed_in AuthContext.initial
     = (b', s', [AuthContext.CallGetCurrentUser]) /\
     AuthContext.user s' = VNull /\
     localStorage b' !! STORAGE_KEYS.USER = None /\
     localStorage b' !! STORAGE_KEYS.TOKENS = None /\
     location_href b' = "/").
Proof.
  split.
  - destruct (initializeAuth_validates Scenario.storage_get Scenario.storage_remove
                Scenario.me_after_expiry Scenario.signed_in AuthContext.initial
                Scenario.profile Scenario.tokens)
      as (b' & s' & Hrun & _ & _ & Huser & Hb); try (vm_compute; reflexivity).
    exists b', s'. split; [exact Hrun|]. split; [exact Huser|].
    rewrite Hb. split; [vm_compute; reflexivity|].
    intros Heq. apply (f_equal getStoredTokens) in Heq. vm_compute in Heq. discriminate.
  - destruct (initializeAuth_validates Scenario.storage_get Scenario.storage_remove
                Scenario.me_refresh_refused Scenario.signed_in AuthContext.initial
                Scenario.profile Scenario.tokens)
      as (b' & s' & Hrun & _ & _ & Huser & Hb); try (vm_compute; reflexivity).
    exists b', s'. split; [exact Hrun|]. split; [exact Huser|].
    rewrite Hb. repeat split; vm_compute; reflexivity.
Defined.

Lemma profile_request_after_login_witness :
  (exists b' cfg,
     AuthContext.login_getCurrentUser Scenario.tokens Scenario.signed_out = (b', cfg) /\
     headers cfg !! "Authorization" = None /\
     location_href b' = "/") /\
  (exists cfg,
     AuthContext.signin_getCurrentUser Scenario.storage_set Scenario.tokens
       Scenario.signed_out
     = (Scenario.storage_set STORAGE_KEYS.TOKENS Scenario.tokens Scenario.signed_out, cfg) /\
     headers cfg !! "Authorization" = Some "Bearer access-1").
Proof.
  apply (profile_request_after_login Scenario.storage_set Scenario.tokens
           Scenario.signed_out); vm_compute; reflexivity.
Defined.
